(** * A shallow embedding of the mega-care-api request handlers

    The Firestore document store is modelled as an ordered association
    list from document paths to field maps; the order of the list is the
    order in which queries stream their results.  Handlers run in a small
    state-and-exception monad: an [HTTPException] carries its status code,
    any other Python exception is an uncaught error that FastAPI turns
    into a 500 response. *)

From Stdlib Require Import ZArith Lia Sorting.Sorted Ascii.
From stdpp Require Import base gmap strings list.

Open Scope Z_scope.

(* ------------------------------------------------------------------ *)
(** ** Document values and documents *)

(** Field values of documents and JSON bodies.  Numbers are [VNum] (the
    integral values suffice for the properties below), datetimes are
    [VTime] (seconds since the epoch), a Python [date] object is [VDate]
    (Firestore cannot store it), arrays of strings are [VStrList], and a
    nested map [VObj] is known by its keys only. *)
Inductive value :=
  | VNull
  | VBool (b : bool)
  | VNum (z : Z)
  | VTime (t : Z)
  | VDate (y m d : Z)
  | VStr (s : string)
  | VStrList (l : list string)
  | VObj (keys : list string).

#[global] Instance value_eq_dec : EqDecision value.
Proof. solve_decision. Defined.

(** Python truthiness of a value ([bool(v)]). *)
Definition truthy (v : value) : bool :=
  match v with
  | VNull => false
  | VBool b => b
  | VNum z => negb (Z.eqb z 0)
  | VTime _ => true
  | VDate _ _ _ => true
  | VStr s => negb (String.eqb s "")
  | VStrList l => negb (Nat.eqb (length l) 0%nat)
  | VObj ks => negb (Nat.eqb (length ks) 0%nat)
  end.

(** A document's field map, i.e. [snapshot.to_dict()]. *)
Abbreviation doc := (gmap string value).

(** [d.get(k)]: the value, or [None] (modelled as [VNull]). *)
Definition dget (d : doc) (k : string) : value :=
  default VNull (d !! k).

(** A document path: alternating collection ids and document ids. *)
Abbreviation path := (list string).

(** The store, in query-stream order. *)
Abbreviation store := (list (path * doc)).

Fixpoint st_get (s : store) (p : path) : option doc :=
  match s with
  | [] => None
  | (q, d) :: s' => if decide (q = p) then Some d else st_get s' p
  end.

(** [ref.set(d)]: overwrite the document, or create it at the end. *)
Fixpoint st_set (s : store) (p : path) (d : doc) : store :=
  match s with
  | [] => [(p, d)]
  | (q, d0) :: s' => if decide (q = p) then (q, d) :: s' else (q, d0) :: st_set s' p d
  end.

(* ------------------------------------------------------------------ *)
(** ** The handler monad *)

Inductive exn :=
  | HTTPException (status_code : Z)
  | PyError (name : string).

Definition M (A : Type) := store -> (exn + A) * store.

Definition ret {A} (a : A) : M A := fun s => (inr a, s).
Definition bind {A B} (m : M A) (k : A -> M B) : M B :=
  fun s => match m s with
           | (inl e, s') => (inl e, s')
           | (inr a, s') => k a s'
           end.
Definition raise {A} (e : exn) : M A := fun s => (inl e, s).

Notation "'let*' x := m 'in' k" := (bind m (fun x => k))
  (at level 200, x name, m at level 100, k at level 200).

(** [try: m  except Exception: <log>]: a best-effort block.  Writes done
    before the exception stay, as they would in Firestore. *)
Definition try_log (m : M unit) : M unit :=
  fun s => match m s with
           | (inl _, s') => (inr tt, s')
           | (inr _, s') => (inr tt, s')
           end.

(** [try: m  except Exception: raise HTTPException(code)]. *)
Definition try_reraise {A} (m : M A) (code : Z) : M A :=
  fun s => match m s with
           | (inl _, s') => (inl (HTTPException code), s')
           | r => r
           end.

(** What FastAPI sends back: the status code and the body. *)
Inductive body :=
  | BNone
  | BDoc (d : doc)
  | BDocs (ds : list doc).

Definition run_endpoint (ok_code : Z) (m : M body) (s : store) : (Z * body) * store :=
  match m s with
  | (inl (HTTPException c), s') => ((c, BNone), s')
  | (inl (PyError _), s') => ((500, BNone), s')
  | (inr b, s') => ((ok_code, b), s')
  end.

(* ------------------------------------------------------------------ *)
(** ** Firestore client operations *)

(** [ref.get()]. *)
Definition fs_get (p : path) : M (option doc) := fun s => (inr (st_get s p), s).

(** The client encodes every field; a Python [date] is refused. *)
Definition encodable (d : doc) : bool :=
  forallb (fun kv => match kv.2 with VDate _ _ _ => false | _ => true end) (map_to_list d).

(** [ref.set(d)]; [fail] stands for the client call raising. *)
Definition fs_set (fail : bool) (p : path) (d : doc) : M unit :=
  fun s => if fail then (inl (PyError "GoogleAPICallError"), s)
           else if encodable d then (inr tt, st_set s p d)
           else (inl (PyError "TypeError"), s).

(** [ref.set(d, merge=True)]: fields of [d] win over the stored ones. *)
Definition fs_set_merge (fail : bool) (p : path) (d : doc) : M unit :=
  fun s => if fail then (inl (PyError "GoogleAPICallError"), s)
           else if encodable d then (inr tt, st_set s p (d ∪ default ∅ (st_get s p)))
           else (inl (PyError "TypeError"), s).

(** [ref.update(d)]: a missing document raises [NotFound]. *)
Definition fs_update (fail : bool) (p : path) (d : doc) : M unit :=
  fun s => if fail then (inl (PyError "GoogleAPICallError"), s)
           else match st_get s p with
                | None => (inl (PyError "NotFound"), s)
                | Some d0 => if encodable d then (inr tt, st_set s p (d ∪ d0))
                             else (inl (PyError "TypeError"), s)
                end.

(** [collection.add(d)] with the auto-generated id [auto_id]. *)
Definition fs_add (fail : bool) (coll : path) (auto_id : string) (d : doc) : M unit :=
  fs_set fail (coll ++ [auto_id]) d.

(** Is [p] a document of a collection with id [g] (any depth)? *)
Definition in_group (g : string) (p : path) : bool :=
  match rev p with
  | _ :: c :: _ => String.eqb c g
  | _ => false
  end.

(** [ref.parent.parent]: [None] for a document of a root collection. *)
Definition parent_parent (p : path) : option path :=
  match rev p with
  | _ :: _ :: (_ :: _) as rest => Some (rev rest)
  | _ => None
  end.

(** Equality filters [FieldFilter(k, "==", v)], all of which must hold. *)
Definition matches (flt : list (string * value)) (d : doc) : bool :=
  forallb (fun kv => bool_decide (d !! kv.1 = Some kv.2)) flt.

(** [db.collection_group(g).where(...).limit(n).stream()]. *)
Definition group_query (g : string) (flt : list (string * value)) (n : nat) (s : store)
  : list (path * doc) :=
  take n (List.filter (fun e => in_group g e.1 && matches flt e.2) s).

Definition fs_group_query (fail : bool) (g : string) (flt : list (string * value)) (n : nat)
  : M (list (path * doc)) :=
  fun s => if fail then (inl (PyError "GoogleAPICallError"), s)
           else (inr (group_query g flt n s), s).

(* ------------------------------------------------------------------ *)
(** ** Pydantic schemas (app/api/v1/schemas.py) *)

Definition is_upper (c : ascii) : bool :=
  let n := Ascii.nat_of_ascii c in (Nat.leb 65 n && Nat.leb n 90)%nat.

Definition lower (c : ascii) : ascii :=
  if is_upper c then Ascii.ascii_of_nat (Ascii.nat_of_ascii c + 32)%nat else c.

(** [re.sub(r'(?<!^)(?=[A-Z])', '_', name).lower()]. *)
Fixpoint snake_from (at_start : bool) (s : string) : string :=
  match s with
  | EmptyString => EmptyString
  | String c r =>
      if negb at_start && is_upper c
      then String "_" (String (lower c) (snake_from false r))
      else String (lower c) (snake_from false r)
  end.

Definition to_snake_case (name : string) : string := snake_from true name.

(** Field types that the schemas use. *)
Inductive fty := TStr | TNum | TDate | TTime | TObj.

Definition ty_ok (t : fty) (v : value) : bool :=
  match t, v with
  | TStr, VStr _ => true
  | TNum, VNum _ => true
  | TDate, VTime x => Z.eqb (x mod 86400) 0
  | TDate, VDate _ _ _ => true
  | TTime, VTime _ => true
  | TObj, VObj _ => true
  | _, _ => false
  end.

(** A model field: name, type, whether [None] is accepted, and its
    default ([None] for a required field). *)
Record field_spec := mkField {
  f_name : string;
  f_ty : fty;
  f_nullable : bool;
  f_default : option value
}.

Definition opt_str (n : string) := mkField n TStr true (Some VNull).
Definition opt_obj (n : string) := mkField n TObj true (Some VNull).

(** [Model.model_validate(d)] for a model with
    [alias_generator=to_snake_case, populate_by_name=True]: each field is
    read under its alias first, then under its name; the result holds
    the fields by name (unknown keys are ignored). *)
Definition model_validate (fs : list field_spec) (d : doc) : option doc :=
  foldr (fun f acc =>
    match acc with
    | None => None
    | Some out =>
        let found := match d !! to_snake_case (f_name f) with
                     | Some v => Some v
                     | None => d !! f_name f
                     end in
        match found, f_default f with
        | Some v, _ =>
            if ty_ok (f_ty f) v || (f_nullable f && bool_decide (v = VNull))
            then Some (<[f_name f := v]> out) else None
        | None, Some v => Some (<[f_name f := v]> out)
        | None, None => None
        end
    end) (Some ∅) fs.

(** [schemas.Customer] (with the fields of [CustomerBase]). *)
Definition Customer_fields : list field_spec :=
  [ opt_str "lineId"; opt_str "firebaseUid";
    mkField "displayName" TStr false None;
    opt_str "title"; opt_str "firstName"; opt_str "lastName";
    mkField "dob" TDate true (Some VNull);
    opt_str "location";
    mkField "status" TStr false (Some (VStr "Active"));
    opt_str "airViewNumber"; opt_str "monitoringType"; opt_str "availableData";
    opt_str "dealerPatientId"; opt_obj "lineProfile";
    mkField "patientId" TStr false None;
    mkField "createDate" TTime false None;
    opt_obj "organisation"; opt_obj "clinicalUser"; opt_obj "compliance";
    opt_obj "dataAccess" ].

(** [schemas.DeviceLinkRequest] after validation. *)
Record DeviceLinkRequest := mkDeviceLinkRequest {
  serialNumber : string;
  deviceNumber : string
}.

(** Attribute access on a pydantic model instance: only the field
    names are attributes (the aliases are not); anything else raises
    [AttributeError]. *)
Definition DeviceLinkRequest_getattr (r : DeviceLinkRequest) (name : string) : M string :=
  if String.eqb name "serialNumber" then ret (serialNumber r)
  else if String.eqb name "deviceNumber" then ret (deviceNumber r)
  else raise (PyError "AttributeError").

(** The JSON request body is validated before the handler runs: a field
    is read under its alias, then under its name; [deviceNumber] is
    [Field(..., min_length=3, max_length=3)].  Failure is a 422. *)
Definition DeviceLinkRequest_validate (b : gmap string value) : option DeviceLinkRequest :=
  let get n := match b !! to_snake_case n with Some v => Some v | None => b !! n end in
  match get "serialNumber", get "deviceNumber" with
  | Some (VStr sn), Some (VStr dn) =>
      if Nat.eqb (String.length dn) 3 then Some (mkDeviceLinkRequest sn dn) else None
  | _, _ => None
  end.

(* ------------------------------------------------------------------ *)
(** ** [link_device_to_profile] (app/api/v1/endpoints/customers.py) *)

(** Which Firestore client calls of the handler raise. *)
Record faults := mkFaults {
  fail_query : bool;          (* step 1: the collection-group query *)
  fail_copy : bool;           (* step 3: copy into [patient_list] *)
  fail_commit : bool;         (* step 5: [set] of the caller's profile *)
  fail_device_update : bool;  (* mark the found device [active] *)
  fail_device_add : bool      (* step 6: device record under the caller *)
}.

Definition no_faults : faults := mkFaults false false false false false.

(** [db.collection(c).document(v)] with a field value as id: only a
    string is a document id. *)
Definition doc_id (v : value) : M string :=
  match v with
  | VStr s => ret s
  | _ => raise (PyError "TypeError")
  end.

(** [{k: v for k, v in d.items() if v is not None}]. *)
Definition drop_none (d : doc) : doc := filter (fun kv => kv.2 <> VNull) d.

(** Step 3 (best effort): copy the found profile into [patient_list]
    under the device's [patientId], linked back to the caller. *)
Definition link_copy_to_patient_list (ft : faults) (user_uid : string)
    (patient_id_from_device : value) (pre_existing_customer_data : doc) : M unit :=
  if truthy patient_id_from_device then
    try_log (let* pid := doc_id patient_id_from_device in
             fs_set_merge (fail_copy ft) ["patient_list"; pid]
               (<["customerId" := VStr user_uid]> pre_existing_customer_data))
  else ret tt.

(** Step 5: the found profile, overlaid with the caller's [lineProfile]
    and [lineId] when present, and the device's [patientId]. *)
Definition link_merge (pre_existing_customer_data current_user_data : doc)
    (patient_id_from_device : value) : doc :=
  let d0 := pre_existing_customer_data in
  let d1 := match current_user_data !! "lineProfile" with
            | Some v => <["lineProfile" := v]> d0 | None => d0 end in
  let d2 := match current_user_data !! "lineId" with
            | Some v => <["lineId" := v]> d1 | None => d1 end in
  <["patientId" := patient_id_from_device]> d2.

(** Best effort: mark the found device as linked to the caller. *)
Definition link_mark_device (ft : faults) (device_path : path) (user_uid : string) : M unit :=
  try_log (fs_update (fail_device_update ft) device_path
             (<["customerId" := VStr user_uid]> {[ "status" := VStr "active" ]})).

(** Step 6 (best effort): a device record under the caller. *)
Definition link_add_device_record (ft : faults) (now : Z) (auto_id : string)
    (link_request : DeviceLinkRequest) (user_uid : string) (device_data : doc) : M unit :=
  try_log (
    let* sn := DeviceLinkRequest_getattr link_request "serial_number" in
    let* dn := DeviceLinkRequest_getattr link_request "device_number" in
    let new_device_data : doc :=
      <["deviceName" := default (VStr "Unknown Device") (device_data !! "deviceName")]>
      (<["serialNumber" := VStr sn]>
      (<["deviceNumber" := VStr dn]>
      (<["status" := default (VStr "Active") (device_data !! "status")]>
      (<["settings" := dget device_data "settings"]>
      {[ "addedDate" := VTime now ]})))) in
    fs_add (fail_device_add ft) (["customers"; user_uid] ++ ["devices"]) auto_id
      (drop_none new_device_data)).

(** Step 7: read the caller's profile back and validate it. *)
Definition link_read_back (user_uid : string) : M body :=
  let* updated_doc := fs_get ["customers"; user_uid] in
  match updated_doc with
  | None => raise (HTTPException 500)
  | Some u =>
      match model_validate Customer_fields (<["patientId" := VStr user_uid]> u) with
      | Some r => ret (BDoc r)
      | None => raise (PyError "ValidationError")
      end
  end.

(** Steps 4 to 7, once the device and the found profile are known. *)
Definition link_commit_and_finish (ft : faults) (now : Z) (auto_id : string)
    (link_request : DeviceLinkRequest) (user_uid : string)
    (device_path : path) (device_data pre_existing_customer_data : doc) : M body :=
  let current_user_customer_ref := ["customers"; user_uid] in
  let* current_user_doc := fs_get current_user_customer_ref in
  let current_user_data := default ∅ current_user_doc in
  let data_to_write := link_merge pre_existing_customer_data current_user_data
                         (dget device_data "patientId") in
  let* _ := try_reraise (fs_set (fail_commit ft) current_user_customer_ref data_to_write) 500 in
  let* _ := link_mark_device ft device_path user_uid in
  let* _ := link_add_device_record ft now auto_id link_request user_uid device_data in
  link_read_back user_uid.

(** The handler from the query on (lines 263-403), given the serial
    number the query filters on. *)
Definition link_device_from_serial (ft : faults) (now : Z) (auto_id : string)
    (link_request : DeviceLinkRequest) (user_uid : string) (serial : string) : M body :=
  let* device_docs :=
    try_reraise (fs_group_query (fail_query ft) "devices"
                   [("serialNumber", VStr serial); ("status", VStr "unlink")] 1) 500 in
  match device_docs with
  | [] => raise (HTTPException 404)
  | (device_path, device_data) :: _ =>
  let* pre_existing_customer_ref :=
    match parent_parent device_path with
    | Some p => ret p
    | None =>
        let patient_id := dget device_data "patientId" in
        if negb (truthy patient_id) then raise (HTTPException 404)
        else let* pid := doc_id patient_id in ret ["patient_list"; pid]
    end in
  let* pre_existing_customer_doc := fs_get pre_existing_customer_ref in
  match pre_existing_customer_doc with
  | None => raise (HTTPException 404)
  | Some pre_existing_customer_data =>
  let* _ := link_copy_to_patient_list ft user_uid (dget device_data "patientId")
              pre_existing_customer_data in
  link_commit_and_finish ft now auto_id link_request user_uid
    device_path device_data pre_existing_customer_data
  end
  end.

(** The handler: step 1 builds the query from [link_request.serial_number]. *)
Definition link_device_to_profile (ft : faults) (now : Z) (auto_id : string)
    (link_request : DeviceLinkRequest) (user_uid : string) : M body :=
  let* serial := DeviceLinkRequest_getattr link_request "serial_number" in
  link_device_from_serial ft now auto_id link_request user_uid serial.

(** [POST /customers/me/link-device]: body validation, then the handler. *)
Definition link_device_endpoint (ft : faults) (now : Z) (auto_id : string)
    (req_body : gmap string value) (user_uid : string) (s : store) : (Z * body) * store :=
  match DeviceLinkRequest_validate req_body with
  | None => ((422, BNone), s)
  | Some r => run_endpoint 200 (link_device_to_profile ft now auto_id r user_uid) s
  end.

(* ------------------------------------------------------------------ *)
(** ** [create_customer_profile] (app/api/v1/endpoints/customers.py) *)

(** [schemas.CustomerProfilePayload]: [None] is a field the request left
    unset, [Some v] a field it set (possibly to [null]). *)
Record CustomerProfilePayload := mkCustomerProfilePayload {
  lineId : option value;
  displayName : option value;
  title : option value;
  firstName : option value;
  lastName : option value;
  dob : option value;
  location : option value;
  status : option value;
  airViewNumber : option value;
  monitoringType : option value;
  availableData : option value;
  dealerPatientId : option value;
  lineProfile : option value
}.

(** The fields in declaration order. *)
Definition CustomerProfilePayload_fields (p : CustomerProfilePayload)
    : list (string * option value) :=
  [ ("lineId", lineId p); ("displayName", displayName p); ("title", title p);
    ("firstName", firstName p); ("lastName", lastName p); ("dob", dob p);
    ("location", location p); ("status", status p);
    ("airViewNumber", airViewNumber p); ("monitoringType", monitoringType p);
    ("availableData", availableData p); ("dealerPatientId", dealerPatientId p);
    ("lineProfile", lineProfile p) ].

(** [model.model_dump(by_alias=True, exclude_unset=...)]: the set fields
    (all fields when [exclude_unset] is off), keyed by their aliases. *)
Definition model_dump_by_alias (fs : list (string * option value)) : doc :=
  foldr (fun nv acc => match nv.2 with
                       | Some v => <[to_snake_case nv.1 := v]> acc
                       | None => acc
                       end) ∅ fs.

(** [str(v)] for the f-string that builds a display name. *)
Definition py_str (v : value) : string :=
  match v with
  | VStr s => s
  | VNull => "None"
  | _ => "<value>"
  end.

(** [datetime.combine(date(y, m, d), datetime.min.time())] in seconds
    since the epoch (days from the civil calendar). *)
Definition days_from_civil (y m d : Z) : Z :=
  let y' := if m <=? 2 then y - 1 else y in
  let era := y' / 400 in
  let yoe := y' - era * 400 in
  let doy := (153 * (if m >? 2 then m - 3 else m + 9) + 2) / 5 + d - 1 in
  let doe := yoe * 365 + yoe / 4 - yoe / 100 + doy in
  era * 146097 + doe - 719468.

Definition combine_midnight (y m d : Z) : value := VTime (days_from_civil y m d * 86400).

Definition create_customer_profile (fail_set : bool) (now : Z)
    (customer_in : CustomerProfilePayload) (user_uid : string) : M body :=
  let customer_ref := ["customers"; user_uid] in
  let* doc0 := fs_get customer_ref in
  if bool_decide (is_Some doc0) then raise (HTTPException 409) else
  let customer_data := model_dump_by_alias (CustomerProfilePayload_fields customer_in) in
  let customer_data :=
    match customer_data !! "displayName", customer_data !! "firstName",
          customer_data !! "lastName" with
    | None, Some f, Some l => <["displayName" := VStr (py_str f +:+ " " +:+ py_str l)]> customer_data
    | _, _, _ => customer_data
    end in
  if bool_decide (customer_data !! "displayName" = None) then raise (HTTPException 422) else
  let customer_data := <["setupDate" := VTime now]> customer_data in
  let customer_data :=
    match customer_data !! "dob" with
    | Some (VDate y m d) => <["dob" := combine_midnight y m d]> customer_data
    | _ => customer_data
    end in
  let* _ := try_reraise (fs_set fail_set customer_ref customer_data) 500 in
  let* new_customer_doc := fs_get customer_ref in
  match new_customer_doc with
  | None => raise (HTTPException 500)
  | Some u =>
      match model_validate Customer_fields (<["patientId" := VStr user_uid]> u) with
      | Some r => ret (BDoc r)
      | None => raise (PyError "ValidationError")
      end
  end.

(** [POST /customers/me]. *)
Definition create_customer_endpoint (fail_set : bool) (now : Z)
    (customer_in : CustomerProfilePayload) (user_uid : string) (s : store) : (Z * body) * store :=
  run_endpoint 201 (create_customer_profile fail_set now customer_in user_uid) s.

(* ------------------------------------------------------------------ *)
(** ** Daily reports (app/api/v1/endpoints/customers.py) *)

(** [schemas.DailyReportCreate]; [reportDate] holds a [VDate]. *)
Record DailyReportCreate := mkDailyReportCreate {
  reportDate : value;
  usageHours : value;
  cheyneStokesRespiration : value;
  rera : value;
  leak : value;
  pressure : value;
  eventsPerHour : value;
  deviceSnapshot : value
}.

Definition DailyReportCreate_fields (r : DailyReportCreate) : list (string * option value) :=
  [ ("reportDate", Some (reportDate r)); ("usageHours", Some (usageHours r));
    ("cheyneStokesRespiration", Some (cheyneStokesRespiration r));
    ("rera", Some (rera r)); ("leak", Some (leak r)); ("pressure", Some (pressure r));
    ("eventsPerHour", Some (eventsPerHour r)); ("deviceSnapshot", Some (deviceSnapshot r)) ].

(** Attribute access: the field names are attributes, the aliases are not. *)
Definition DailyReportCreate_getattr (r : DailyReportCreate) (name : string) : M value :=
  match find (fun nv => String.eqb nv.1 name) (DailyReportCreate_fields r) with
  | Some (_, Some v) => ret v
  | _ => raise (PyError "AttributeError")
  end.

(** [schemas.DailyReport]. *)
Definition DailyReport_fields : list field_spec :=
  [ mkField "reportDate" TDate false None;
    mkField "usageHours" TNum false None;
    opt_str "cheyneStokesRespiration";
    mkField "rera" TNum true (Some VNull);
    mkField "leak" TObj false None;
    mkField "pressure" TObj false None;
    mkField "eventsPerHour" TObj false None;
    opt_obj "deviceSnapshot";
    mkField "reportId" TStr false None ].

Definition digit (n : Z) : ascii := Ascii.ascii_of_nat (48 + Z.to_nat n)%nat.

(** The last [w] decimal digits of [n], zero padded. *)
Fixpoint digits (w : nat) (n : Z) : string :=
  match w with
  | O => EmptyString
  | S w' => digits w' (n / 10) +:+ String (digit (n mod 10)) EmptyString
  end.

(** [d.strftime('%Y-%m-%d')] (four-digit years). *)
Definition strftime_ymd (v : value) : M string :=
  match v with
  | VDate y m d => ret (digits 4 y +:+ "-" +:+ digits 2 m +:+ "-" +:+ digits 2 d)
  | _ => raise (PyError "AttributeError")
  end.

Definition submit_daily_report (fail_set : bool) (report_in : DailyReportCreate)
    (user_uid : string) : M body :=
  let* rd := DailyReportCreate_getattr report_in "report_date" in
  let* report_id := strftime_ymd rd in
  let report_ref := ["customers"; user_uid; "dailyReports"; report_id] in
  let report_data := model_dump_by_alias (DailyReportCreate_fields report_in) in
  let report_data :=
    match report_data !! "reportDate" with
    | Some (VDate y m d) => <["reportDate" := combine_midnight y m d]> report_data
    | _ => report_data
    end in
  let* _ := fs_set fail_set report_ref report_data in
  let* new_report_doc := fs_get report_ref in
  match new_report_doc with
  | None => raise (HTTPException 500)
  | Some u =>
      match model_validate DailyReport_fields (<["reportId" := VStr report_id]> u) with
      | Some r => ret (BDoc r)
      | None => raise (PyError "ValidationError")
      end
  end.

(** [POST /customers/me/dailyReports]. *)
Definition submit_daily_report_endpoint (fail_set : bool) (report_in : DailyReportCreate)
    (user_uid : string) (s : store) : (Z * body) * store :=
  run_endpoint 201 (submit_daily_report fail_set report_in user_uid) s.

(** Firestore's order on field values: first by type (null, booleans,
    numbers, timestamps, strings, arrays, maps), then by value; arrays
    and maps are not ordered further here. *)
Definition type_rank (v : value) : Z :=
  match v with
  | VNull => 0 | VBool _ => 1 | VNum _ => 2 | VTime _ => 3 | VDate _ _ _ => 3
  | VStr _ => 4 | VStrList _ => 5 | VObj _ => 6
  end.

Definition value_cmp (a b : value) : comparison :=
  match Z.compare (type_rank a) (type_rank b) with
  | Eq =>
      match a, b with
      | VBool x, VBool y => Bool.compare x y
      | VNum x, VNum y => Z.compare x y
      | VTime x, VTime y => Z.compare x y
      | VStr x, VStr y => String.compare x y
      | _, _ => Eq
      end
  | c => c
  end.

(** Insert into a list ordered by [field], descending. *)
Fixpoint insert_desc (field : string) (x : path * doc) (l : list (path * doc)) :=
  match l with
  | [] => [x]
  | y :: l' =>
      match value_cmp (dget x.2 field) (dget y.2 field) with
      | Lt => y :: insert_desc field x l'
      | _ => x :: l
      end
  end.

Definition sort_desc (field : string) (l : list (path * doc)) : list (path * doc) :=
  foldr (insert_desc field) [] l.

(** The documents directly in the collection [coll]. *)
Definition in_collection (coll : path) (p : path) : bool :=
  bool_decide (length p = S (length coll) /\ take (length coll) p = coll).

(** [coll.order_by(field, direction=DESCENDING).limit(n).stream()]:
    documents without the field are left out. *)
Definition order_by_desc_limit (coll : path) (field : string) (n : nat) (s : store)
  : list (path * doc) :=
  take n (sort_desc field
    (List.filter (fun e => in_collection coll e.1 && bool_decide (is_Some (e.2 !! field))) s)).

(** The last segment of a path: [doc.id]. *)
Definition doc_name (p : path) : string := default "" (last p).

(** Validate each streamed report, with its [reportId]. *)
Fixpoint validate_reports (l : list (path * doc)) : M (list doc) :=
  match l with
  | [] => ret []
  | (p, d) :: l' =>
      match model_validate DailyReport_fields (<["reportId" := VStr (doc_name p)]> d) with
      | None => raise (PyError "ValidationError")
      | Some r => let* rs := validate_reports l' in ret (r :: rs)
      end
  end.

(** [Query(30, ge=1, le=100)]: [None] is an omitted limit. *)
Definition limit_param (limit : option Z) : option nat :=
  let n := default 30 limit in
  if (1 <=? n) && (n <=? 100) then Some (Z.to_nat n) else None.

Definition get_my_daily_reports (limit : nat) (user_uid : string) : M body :=
  let reports_ref := ["customers"; user_uid; "dailyReports"] in
  let* docs := fun s => (inr (order_by_desc_limit reports_ref "reportDate" limit s), s) in
  let* reports := validate_reports docs in
  ret (BDocs reports).

(** [GET /customers/me/dailyReports?limit=N]. *)
Definition get_my_daily_reports_endpoint (limit : option Z) (user_uid : string) (s : store)
  : (Z * body) * store :=
  match limit_param limit with
  | None => ((422, BNone), s)
  | Some n => run_endpoint 200 (get_my_daily_reports n user_uid) s
  end.

(* ------------------------------------------------------------------ *)
(** ** Clinician endpoints (app/api/v1/endpoints/clinicians.py) *)

Fixpoint str_prefix (p s : string) : bool :=
  match p, s with
  | EmptyString, _ => true
  | String a p', String b s' => Ascii.eqb a b && str_prefix p' s'
  | _, _ => false
  end.

(** [t in s] for strings: [t] is a substring of [s]. *)
Fixpoint str_contains (s t : string) : bool :=
  str_prefix t s || match s with
                    | EmptyString => false
                    | String _ s' => str_contains s' t
                    end.

(** [x in container]: lists by element, strings by substring, dicts by
    key; any other value is not iterable. *)
Definition py_in (x : string) (container : value) : M bool :=
  match container with
  | VStrList l => ret (bool_decide (x ∈ l))
  | VStr s => ret (str_contains s x)
  | VObj ks => ret (bool_decide (x ∈ ks))
  | _ => raise (PyError "TypeError")
  end.

(** Step 1 of both patient endpoints: the clinician must exist and list
    the patient in [assignedPatients]. *)
Definition check_assigned (clinician_uid patientId : string) : M unit :=
  let* clinician_doc := fs_get ["clinicians"; clinician_uid] in
  match clinician_doc with
  | None => raise (HTTPException 403)
  | Some c =>
      let* member := py_in patientId (default (VStrList []) (c !! "assignedPatients")) in
      if member then ret tt else raise (HTTPException 403)
  end.

Definition get_patient_profile (clinician_uid patientId : string) : M body :=
  let* _ := check_assigned clinician_uid patientId in
  let* customer_doc := fs_get ["customers"; patientId] in
  match customer_doc with
  | None => raise (HTTPException 404)
  | Some d =>
      (* [response_model=schemas.Customer] validates the returned dict *)
      match model_validate Customer_fields (<["patientId" := VStr patientId]> d) with
      | Some r => ret (BDoc r)
      | None => raise (PyError "ResponseValidationError")
      end
  end.

Definition get_patient_daily_reports (limit : nat) (clinician_uid patientId : string) : M body :=
  let* _ := check_assigned clinician_uid patientId in
  let reports_ref := ["customers"; patientId; "dailyReports"] in
  let* docs := fun s => (inr (order_by_desc_limit reports_ref "reportDate" limit s), s) in
  (* [response_model=List[schemas.DailyReport]] validates the list *)
  let* reports := validate_reports docs in
  ret (BDocs reports).

(** [GET /clinicians/patients/{patientId}]. *)
Definition get_patient_profile_endpoint (clinician_uid patientId : string) (s : store)
  : (Z * body) * store :=
  run_endpoint 200 (get_patient_profile clinician_uid patientId) s.

(** [GET /clinicians/patients/{patientId}/dailyReports?limit=N]. *)
Definition get_patient_daily_reports_endpoint (limit : option Z)
    (clinician_uid patientId : string) (s : store) : (Z * body) * store :=
  match limit_param limit with
  | None => ((422, BNone), s)
  | Some n => run_endpoint 200 (get_patient_daily_reports n clinician_uid patientId) s
  end.

(* ------------------------------------------------------------------ *)
(** ** LINE access-token verification (app/dependencies/auth.py) *)

(** The JSON body of the provider's reply. *)
Inductive json_reply :=
  | JObject (m : gmap string value)
  | JNonObject                (* valid JSON that is not an object *)
  | JInvalid.                 (* not JSON at all *)

(** The outcome of [client.get(verify_url, ...)]. *)
Inductive http_reply :=
  | HttpReply (status_code : Z) (b : json_reply)
  | NetworkError.

(** [_verify_line_token]: [raise_for_status] accepts the 2xx codes; the
    client id is compared with [settings.LINE_CHANNEL_ID]. *)
Definition verify_line_token (LINE_CHANNEL_ID : string) (reply : http_reply) : exn + value :=
  match reply with
  | NetworkError => inl (HTTPException 500)
  | HttpReply code b =>
      if negb ((200 <=? code) && (code <? 300)) then
        (* [e.response.json().get(...)] inside the handler *)
        match b with
        | JObject _ => inl (HTTPException code)
        | _ => inl (PyError "AttributeError")
        end
      else
        match b with
        | JInvalid => inl (HTTPException 400)
        | JNonObject => inl (PyError "AttributeError")   (* [data.get] on a non-dict *)
        | JObject data =>
            if negb (bool_decide (dget data "client_id" = VStr LINE_CHANNEL_ID))
            then inl (HTTPException 401)
            else
              let line_id := dget data "sub" in
              if negb (truthy line_id) then inl (HTTPException 401) else inr line_id
        end
  end.

(* ------------------------------------------------------------------ *)
(** ** [link_account] (app/routers/users.py) *)

Definition link_account (serialNumber : string) (line_id : string) : M body :=
  let* device_docs := fun s =>
    (inr (group_query "devices" [("serialNumber", VStr serialNumber)] 1 s), s) in
  match device_docs with
  | [] => raise (HTTPException 404)
  | (device_path, _) :: _ =>
      match parent_parent device_path with
      | None => raise (PyError "AttributeError")          (* [None.get()] *)
      | Some customer_ref =>
          let* customer_doc := fs_get customer_ref in
          match customer_doc with
          | None => raise (PyError "AttributeError")      (* [None.get("lineId")] *)
          | Some customer_data =>
              let existing_line_id := dget customer_data "lineId" in
              if truthy existing_line_id &&
                 negb (bool_decide (existing_line_id = VStr line_id))
              then raise (HTTPException 409)
              else
                let* _ := if negb (truthy existing_line_id)
                          then fs_update false customer_ref {[ "lineId" := VStr line_id ]}
                          else ret tt in
                ret BNone
          end
      end
  end.

(** [POST /users/link-account]. *)
Definition link_account_endpoint (serialNumber line_id : string) (s : store)
  : (Z * body) * store :=
  run_endpoint 204 (link_account serialNumber line_id) s.

(* ------------------------------------------------------------------ *)
(** ** Predicates used in the statements *)

(** No document of a [devices] collection has [serialNumber = sn] and
    [status = "unlink"]. *)
Definition no_unlink_device (sn : string) (s : store) : bool :=
  forallb (fun e => negb (in_group "devices" e.1 &&
                          matches [("serialNumber", VStr sn); ("status", VStr "unlink")] e.2)) s.

(** Some device with serial [sn] exists, and every one of them has been
    flipped to [active] and carries [customerId = uid]. *)
Definition device_linked_to (sn uid : string) (s : store) : bool :=
  existsb (fun e => in_group "devices" e.1 && matches [("serialNumber", VStr sn)] e.2) s &&
  forallb (fun e => negb (in_group "devices" e.1 && matches [("serialNumber", VStr sn)] e.2) ||
                    matches [("status", VStr "active"); ("customerId", VStr uid)] e.2) s.

(** The faults that the handler does not absorb: the query and the
    commit.  The best-effort steps succeed. *)
Definition critical_only (ft : faults) : faults :=
  mkFaults (fail_query ft) false (fail_commit ft) false false.

(* ------------------------------------------------------------------ *)
(** ** [get_my_profile] (app/api/v1/endpoints/customers.py) *)




(* ------------------------------------------------------------------ *)
(** ** Devices, masks and air tubing of a customer
       (app/api/v1/endpoints/customers.py) *)

(** [collection.add(d)] under the generated id: [add] calls [create()],
    which refuses an existing document. *)
Definition fs_create (fail : bool) (p : path) (d : doc) : M unit :=
  fun s => if fail then (inl (PyError "GoogleAPICallError"), s)
           else match st_get s p with
                | Some _ => (inl (PyError "AlreadyExists"), s)
                | None => fs_set false p d s
                end.

(** [model.model_dump(by_alias=True)] of a validated model, held by field
    name: every field, keyed by its alias. *)
Definition dump_model (fs : list field_spec) (r : doc) : doc :=
  model_dump_by_alias (map (fun f => (f_name f, r !! f_name f)) fs).

(** [schemas.DeviceCreate] (the fields of [DeviceBase]). *)
Definition DeviceCreate_fields : list field_spec :=
  [ mkField "deviceName" TStr false None;
    mkField "serialNumber" TStr false None;
    mkField "deviceNumber" TStr false None;
    mkField "status" TStr false (Some (VStr "Active"));
    opt_obj "settings" ].

(** [deviceNumber: str = Field(..., min_length=3, max_length=3)]. *)
Definition device_number_ok (r : doc) : bool :=
  match r !! "deviceNumber" with
  | Some (VStr dn) => Nat.eqb (String.length dn) 3
  | _ => false
  end.

Definition DeviceCreate_validate (b : doc) : option doc :=
  match model_validate DeviceCreate_fields b with
  | Some r => if device_number_ok r then Some r else None
  | None => None
  end.

(** [schemas.Device]. *)
Definition Device_fields : list field_spec :=
  DeviceCreate_fields ++ [mkField "deviceId" TStr false None; mkField "addedDate" TTime false None].

Definition Device_validate (d : doc) : option doc :=
  match model_validate Device_fields d with
  | Some r => if device_number_ok r then Some r else None
  | None => None
  end.

(** [schemas.MaskCreate] and [schemas.Mask]. *)
Definition MaskCreate_fields : list field_spec :=
  [ mkField "maskName" TStr false None; mkField "size" TStr false None ].

Definition Mask_fields : list field_spec :=
  MaskCreate_fields ++ [mkField "maskId" TStr false None; mkField "addedDate" TTime false None].

(** [schemas.AirTubingCreate] and [schemas.AirTubing]. *)
Definition AirTubingCreate_fields : list field_spec :=
  [ mkField "tubingName" TStr false None ].

Definition AirTubing_fields : list field_spec :=
  AirTubingCreate_fields ++ [mkField "tubingId" TStr false None; mkField "addedDate" TTime false None].

(** The shared body of [add_a_device], [add_a_mask] and [add_air_tubing]:
    dump the validated input [item_in] by alias, stamp [addedDate], [add]
    it to the caller's sub-collection [coll] under the generated id
    [auto_id], read it back and validate it with its id under [id_key]. *)
Definition add_sub_item (create_fields : list field_spec) (validate_out : doc -> option doc)
    (coll id_key : string) (fail_add : bool) (now : Z) (auto_id : string)
    (item_in : doc) (user_uid : string) : M body :=
  let items_ref := ["customers"; user_uid; coll] in
  let item_data := <["addedDate" := VTime now]> (dump_model create_fields item_in) in
  let* _ := fs_create fail_add (items_ref ++ [auto_id]) item_data in
  let* new_doc := fs_get (items_ref ++ [auto_id]) in
  match new_doc with
  | None => raise (PyError "TypeError")              (* [None["deviceId"] = ...] *)
  | Some response_data =>
      match validate_out (<[id_key := VStr auto_id]> response_data) with
      | Some r => ret (BDoc r)
      | None => raise (PyError "ValidationError")
      end
  end.

(** The request body is validated first (422 on failure); success is 201. *)
Definition add_sub_item_endpoint (validate_in : doc -> option doc)
    (create_fields : list field_spec) (validate_out : doc -> option doc)
    (coll id_key : string) (fail_add : bool) (now : Z) (auto_id : string)
    (body_in : doc) (user_uid : string) (s : store) : (Z * body) * store :=
  match validate_in body_in with
  | None => ((422, BNone), s)
  | Some item_in =>
      run_endpoint 201
        (add_sub_item create_fields validate_out coll id_key fail_add now auto_id item_in user_uid) s
  end.

(** The shared body of [get_my_devices], [get_my_masks] and
    [get_my_air_tubing]: stream the sub-collection, add each document's
    id under [id_key] and validate it. *)
Definition list_sub_items (validate_out : doc -> option doc) (coll id_key : string)
    (user_uid : string) : M body :=
  let* docs := fun s =>
    (inr (List.filter (fun e => in_collection ["customers"; user_uid; coll] e.1) s), s) in
  match mapM (fun e => validate_out (<[id_key := VStr (doc_name e.1)]> e.2)) docs with
  | Some items => ret (BDocs items)
  | None => raise (PyError "ValidationError")
  end.

Definition list_sub_items_endpoint (validate_out : doc -> option doc) (coll id_key : string)
    (user_uid : string) (s : store) : (Z * body) * store :=
  run_endpoint 200 (list_sub_items validate_out coll id_key user_uid) s.

(** [POST /customers/me/devices] and [GET /customers/me/devices]. *)
Definition add_a_device_endpoint :=
  add_sub_item_endpoint DeviceCreate_validate DeviceCreate_fields Device_validate "devices" "deviceId".
Definition get_my_devices_endpoint :=
  list_sub_items_endpoint Device_validate "devices" "deviceId".

(** [POST /customers/me/masks] and [GET /customers/me/masks]. *)
Definition add_a_mask_endpoint :=
  add_sub_item_endpoint (model_validate MaskCreate_fields) MaskCreate_fields
    (model_validate Mask_fields) "masks" "maskId".
Definition get_my_masks_endpoint :=
  list_sub_items_endpoint (model_validate Mask_fields) "masks" "maskId".

(** [POST /customers/me/airTubing] and [GET /customers/me/airTubing]. *)
Definition add_air_tubing_endpoint :=
  add_sub_item_endpoint (model_validate AirTubingCreate_fields) AirTubingCreate_fields
    (model_validate AirTubing_fields) "airTubing" "tubingId".
Definition get_my_air_tubing_endpoint :=
  list_sub_items_endpoint (model_validate AirTubing_fields) "airTubing" "tubingId".

(* ------------------------------------------------------------------ *)
(** ** [get_assigned_patients] (app/api/v1/endpoints/clinicians.py) *)

(** [for x in v]: a list by element, a string by character, a dict by
    key; any other value is not iterable. *)
Definition py_iter (v : value) : M (list string) :=
  match v with
  | VStrList l => ret l
  | VStr s => ret (map (fun c => String c EmptyString) (String.list_ascii_of_string s))
  | VObj ks => ret ks
  | _ => raise (PyError "TypeError")
  end.

(** The loop over the assigned ids: the profiles that exist, each with
    its [patientId]. *)
Fixpoint fetch_patients (patient_uids : list string) : M (list doc) :=
  match patient_uids with
  | [] => ret []
  | patient_uid :: rest =>
      let* customer_doc := fs_get ["customers"; patient_uid] in
      let* patients := fetch_patients rest in
      match customer_doc with
      | Some d => ret (<["patientId" := VStr patient_uid]> d :: patients)
      | None => ret patients
      end
  end.

Definition get_assigned_patients (clinician_uid : string) : M body :=
  let* clinician_doc := fs_get ["clinicians"; clinician_uid] in
  match clinician_doc with
  | None => raise (HTTPException 404)
  | Some c =>
      let assigned_patient_uids := default (VStrList []) (c !! "assignedPatients") in
      if negb (truthy assigned_patient_uids) then ret (BDocs []) else
      let* uids := py_iter assigned_patient_uids in
      let* patients := fetch_patients uids in
      (* [response_model=List[schemas.Customer]] validates the list *)
      match mapM (model_validate Customer_fields) patients with
      | Some rs => ret (BDocs rs)
      | None => raise (PyError "ResponseValidationError")
      end
  end.

(** [GET /clinicians/patients]. *)
Definition get_assigned_patients_endpoint (clinician_uid : string) (s : store)
  : (Z * body) * store :=
  run_endpoint 200 (get_assigned_patients clinician_uid) s.

(* ------------------------------------------------------------------ *)
(** ** [get_user_status] (app/routers/users.py) *)

(** [customers.where(lineId == line_id).limit(1).stream()]. *)
Definition customers_with_line_id (line_id : string) (s : store) : list (path * doc) :=
  take 1 (List.filter (fun e => in_collection ["customers"] e.1 &&
                                matches [("lineId", VStr line_id)] e.2) s).

(** [UserStatusResponse(isLinked=any(query.stream()))]: a document
    snapshot is always truthy. *)
Definition get_user_status (line_id : string) : M body :=
  fun s => (inr (BDoc {[ "isLinked" := VBool (negb (Nat.eqb (length (customers_with_line_id line_id s)) 0)) ]}), s).

(** [GET /users/status]. *)
Definition get_user_status_endpoint (line_id : string) (s : store) : (Z * body) * store :=
  run_endpoint 200 (get_user_status line_id) s.

(* ------------------------------------------------------------------ *)
(** ** [get_user_equipment] (app/routers/equipment.py) *)

(** [model_validate] for a model without an alias generator: every field
    is read under its name only. *)
Definition model_validate_plain (fs : list field_spec) (d : doc) : option doc :=
  foldr (fun f acc =>
    match acc with
    | None => None
    | Some out =>
        match d !! f_name f, f_default f with
        | Some v, _ =>
            if ty_ok (f_ty f) v || (f_nullable f && bool_decide (v = VNull))
            then Some (<[f_name f := v]> out) else None
        | None, Some v => Some (<[f_name f := v]> out)
        | None, None => None
        end
    end) (Some ∅) fs.

(** [app.models.equipment.Device]. *)
Definition EquipmentDevice_fields : list field_spec :=
  [ mkField "serialNumber" TStr false None;
    mkField "model" TStr false None;
    mkField "lastSync" TTime true (Some VNull) ].

(** The whole body runs inside [try ... except Exception], which also
    catches the [HTTPException(404)] raised inside it. *)
Definition get_user_equipment (line_id : string) : M body :=
  try_reraise (
    let* customer_docs := fun s => (inr (customers_with_line_id line_id s), s) in
    match customer_docs with
    | [] => raise (HTTPException 404)
    | (customer_path, _) :: _ =>
        let customer_id := doc_name customer_path in
        let* device_docs := fun s =>
          (inr (List.filter (fun e => in_collection ["customers"; customer_id; "devices"] e.1) s), s) in
        match mapM (fun e => model_validate_plain EquipmentDevice_fields e.2) device_docs with
        | Some devices_list => ret (BDocs devices_list)
        | None => raise (PyError "ValidationError")
        end
    end) 500.

(** [GET /api/v1/equipment]. *)
Definition get_user_equipment_endpoint (line_id : string) (s : store) : (Z * body) * store :=
  run_endpoint 200 (get_user_equipment line_id) s.

(* ------------------------------------------------------------------ *)
(** ** Sample inputs *)

(** A pre-provisioned patient [P] with a device [S1] waiting to be linked. *)
Definition sample_store : store :=
  [ (["customers"; "P"], <["displayName" := VStr "Ann"]> {[ "createDate" := VTime 5 ]});
    (["customers"; "P"; "devices"; "d1"],
       <["serialNumber" := VStr "S1"]>
       (<["status" := VStr "unlink"]> {[ "patientId" := VStr "X" ]})) ].

(** [{"serial_number": "S1", "device_number": "001"}]. *)
Definition sample_link_body : gmap string value :=
  <["serial_number" := VStr "S1"]> {[ "device_number" := VStr "001" ]}.

Definition sample_link_request : DeviceLinkRequest := mkDeviceLinkRequest "S1" "001".

(** [{"deviceName": "AirSense", "serialNumber": "S9", "deviceNumber": "002"}]. *)
Definition sample_device_body : doc :=
  <["deviceName" := VStr "AirSense"]>
  (<["serialNumber" := VStr "S9"]> {[ "deviceNumber" := VStr "002" ]}).


(* ================================================================== *)
(** * Lemmas *)

Lemma st_get_set_eq (s : store) (p : path) (d : doc) :
  st_get (st_set s p d) p = Some d.
Proof.
  induction s as [|[q d0] s IH]; simpl.
  - by rewrite decide_True.
  - destruct (decide (q = p)) as [->|Hne]; simpl.
    + by rewrite decide_True.
    + by rewrite decide_False.
Qed.

Lemma st_get_set_ne (s : store) (p q : path) (d : doc) :
  p <> q -> st_get (st_set s p d) q = st_get s q.
Proof.
  intros Hpq. induction s as [|[r d0] s IH]; simpl.
  - by rewrite decide_False.
  - destruct (decide (r = p)) as [->|Hne]; simpl.
    + by rewrite !decide_False.
    + destruct (decide (r = q)); [done|exact IH].
Qed.

Lemma bind_inr {A B} (m : M A) (k : A -> M B) (s s' : store) (a : A) :
  m s = (inr a, s') -> bind m k s = k a s'.
Proof. intros H. unfold bind. by rewrite H. Qed.

Lemma bind_inl {A B} (m : M A) (k : A -> M B) (s s' : store) (e : exn) :
  m s = (inl e, s') -> bind m k s = (inl e, s').
Proof. intros H. unfold bind. by rewrite H. Qed.

(** A computation that never touches the document at [q]. *)
Definition keeps (q : path) {A} (m : M A) : Prop :=
  forall s, st_get (m s).2 q = st_get s q.

Lemma try_log_ok (q : path) (m : M unit) (s : store) :
  keeps q m -> exists s', try_log m s = (inr tt, s') /\ st_get s' q = st_get s q.
Proof.
  intros Hk. unfold try_log. specialize (Hk s).
  destruct (m s) as [[e|[]] s'] eqn:E; simpl in Hk; eauto.
Qed.

Lemma keeps_ret (q : path) {A} (a : A) : keeps q (ret a).
Proof. intros s. reflexivity. Qed.

Lemma keeps_raise (q : path) {A} (e : exn) : keeps q (@raise A e).
Proof. intros s. reflexivity. Qed.

Lemma keeps_bind (q : path) {A B} (m : M A) (k : A -> M B) :
  keeps q m -> (forall a, keeps q (k a)) -> keeps q (bind m k).
Proof.
  intros Hm Hk s. unfold bind. specialize (Hm s).
  destruct (m s) as [[e|a] s'] eqn:E; simpl in *; [done|].
  by rewrite Hk.
Qed.

Lemma keeps_set (q p : path) (fail : bool) (d : doc) :
  p <> q -> keeps q (fs_set fail p d).
Proof.
  intros Hpq s. unfold fs_set.
  destruct fail; [done|]. destruct (encodable d); [|done].
  by apply st_get_set_ne.
Qed.

Lemma keeps_set_merge (q p : path) (fail : bool) (d : doc) :
  p <> q -> keeps q (fs_set_merge fail p d).
Proof.
  intros Hpq s. unfold fs_set_merge.
  destruct fail; [done|]. destruct (encodable d); [|done].
  by apply st_get_set_ne.
Qed.

Lemma keeps_update (q p : path) (fail : bool) (d : doc) :
  p <> q -> keeps q (fs_update fail p d).
Proof.
  intros Hpq s. unfold fs_update.
  destruct fail; [done|]. destruct (st_get s p); [|done].
  destruct (encodable d); [|done]. by apply st_get_set_ne.
Qed.

Lemma keeps_getattr (q : path) (r : DeviceLinkRequest) (n : string) :
  keeps q (DeviceLinkRequest_getattr r n).
Proof.
  unfold DeviceLinkRequest_getattr.
  destruct (String.eqb n "serialNumber"); [apply keeps_ret|].
  destruct (String.eqb n "deviceNumber"); [apply keeps_ret|apply keeps_raise].
Qed.

Lemma keeps_doc_id (q : path) (v : value) : keeps q (doc_id v).
Proof. destruct v; (apply keeps_ret || apply keeps_raise). Qed.

Lemma in_group_ne (g : string) (p q : path) :
  in_group g p = true -> in_group g q = false -> p <> q.
Proof. intros Hp Hq ->. congruence. Qed.

Lemma customers_not_device (x : string) : in_group "devices" ["customers"; x] = false.
Proof. reflexivity. Qed.

Lemma link_copy_ok (ft : faults) (uid x : string) (pid : value) (pre : doc) (s : store) :
  exists s', link_copy_to_patient_list ft uid pid pre s = (inr tt, s') /\
             st_get s' ["customers"; x] = st_get s ["customers"; x].
Proof.
  unfold link_copy_to_patient_list. destruct (truthy pid).
  - apply try_log_ok. apply keeps_bind; [apply keeps_doc_id|].
    intros a. apply keeps_set_merge. congruence.
  - by exists s.
Qed.

Lemma link_mark_ok (ft : faults) (p : path) (uid x : string) (s : store) :
  in_group "devices" p = true ->
  exists s', link_mark_device ft p uid s = (inr tt, s') /\
             st_get s' ["customers"; x] = st_get s ["customers"; x].
Proof.
  intros Hp. apply try_log_ok. apply keeps_update.
  apply (in_group_ne "devices"); [exact Hp|apply customers_not_device].
Qed.

Lemma link_add_ok (ft : faults) (now : Z) (aid : string) (r : DeviceLinkRequest)
    (uid : string) (dd : doc) (s : store) :
  exists s', link_add_device_record ft now aid r uid dd s = (inr tt, s') /\
             st_get s' ["customers"; uid] = st_get s ["customers"; uid].
Proof.
  apply try_log_ok. apply keeps_bind; [apply keeps_getattr|intros sn].
  apply keeps_bind; [apply keeps_getattr|intros dn].
  unfold fs_add. apply keeps_set. simpl. congruence.
Qed.

Lemma commit_step (fail : bool) (q : path) (d : doc) (s : store) :
  try_reraise (fs_set fail q d) 500 s =
  if fail || negb (encodable d) then (inl (HTTPException 500), s) else (inr tt, st_set s q d).
Proof. unfold try_reraise, fs_set. by destruct fail, (encodable d). Qed.

Lemma run_endpoint_fst (c : Z) (m1 m2 : M body) (s1 s2 : store) :
  (m1 s1).1 = (m2 s2).1 -> (run_endpoint c m1 s1).1 = (run_endpoint c m2 s2).1.
Proof.
  unfold run_endpoint. destruct (m1 s1) as [r1 t1], (m2 s2) as [r2 t2]; simpl.
  intros ->. by destruct r2 as [[]|].
Qed.

Lemma link_read_back_fst (uid : string) (s1 s2 : store) :
  st_get s1 ["customers"; uid] = st_get s2 ["customers"; uid] ->
  (link_read_back uid s1).1 = (link_read_back uid s2).1.
Proof.
  intros H. unfold link_read_back.
  rewrite (bind_inr _ _ s1 s1 (st_get s1 ["customers"; uid])) by reflexivity.
  rewrite (bind_inr _ _ s2 s2 (st_get s2 ["customers"; uid])) by reflexivity.
  rewrite H. destruct (st_get s2 ["customers"; uid]) as [u|]; [|done].
  by destruct (model_validate _ _).
Qed.

(** Steps 4 to 7 answer according to the caller's stored profile and
    the commit alone; the best-effort faults play no part. *)
Lemma link_commit_and_finish_fst (ft1 ft2 : faults) (now : Z) (aid : string)
    (r : DeviceLinkRequest) (uid : string) (p : path) (dd pre : doc) (s1 s2 : store) :
  fail_commit ft1 = fail_commit ft2 ->
  in_group "devices" p = true ->
  st_get s1 ["customers"; uid] = st_get s2 ["customers"; uid] ->
  (link_commit_and_finish ft1 now aid r uid p dd pre s1).1 =
  (link_commit_and_finish ft2 now aid r uid p dd pre s2).1.
Proof.
  intros Hc Hp Hq. unfold link_commit_and_finish.
  rewrite (bind_inr _ _ s1 s1 (st_get s1 ["customers"; uid])) by reflexivity.
  rewrite (bind_inr _ _ s2 s2 (st_get s2 ["customers"; uid])) by reflexivity.
  cbv beta. rewrite Hq, Hc.
  set (d := link_merge pre (default ∅ (st_get s2 ["customers"; uid])) (dget dd "patientId")).
  destruct (fail_commit ft2 || negb (encodable d)) eqn:Hf.
  - rewrite (bind_inl _ _ s1 s1 (HTTPException 500)) by (rewrite commit_step, Hf; reflexivity).
    rewrite (bind_inl _ _ s2 s2 (HTTPException 500)) by (rewrite commit_step, Hf; reflexivity).
    reflexivity.
  - rewrite (bind_inr _ _ s1 (st_set s1 ["customers"; uid] d) tt)
      by (rewrite commit_step, Hf; reflexivity).
    rewrite (bind_inr _ _ s2 (st_set s2 ["customers"; uid] d) tt)
      by (rewrite commit_step, Hf; reflexivity).
    destruct (link_mark_ok ft1 p uid uid (st_set s1 ["customers"; uid] d) Hp) as [a1 [E1 G1]].
    destruct (link_mark_ok ft2 p uid uid (st_set s2 ["customers"; uid] d) Hp) as [a2 [E2 G2]].
    rewrite (bind_inr _ _ _ _ _ E1), (bind_inr _ _ _ _ _ E2).
    destruct (link_add_ok ft1 now aid r uid dd a1) as [b1 [F1 H1]].
    destruct (link_add_ok ft2 now aid r uid dd a2) as [b2 [F2 H2]].
    rewrite (bind_inr _ _ _ _ _ F1), (bind_inr _ _ _ _ _ F2).
    apply link_read_back_fst.
    rewrite H1, H2, G1, G2, !st_get_set_eq. reflexivity.
Qed.

Lemma bind_fst_congr {A B} (m : M A) (k1 k2 : A -> M B) (s : store) :
  (forall a s', m s = (inr a, s') -> (k1 a s').1 = (k2 a s').1) ->
  (bind m k1 s).1 = (bind m k2 s).1.
Proof.
  intros H. unfold bind. destruct (m s) as [[e|a] s'] eqn:E; [done|].
  by apply H.
Qed.

Lemma group_query_in_group (g : string) (flt : list (string * value)) (n : nat)
    (s : store) (p : path) (d : doc) (rest : list (path * doc)) :
  group_query g flt n s = (p, d) :: rest -> in_group g p = true.
Proof.
  unfold group_query. intros H.
  assert (Hin : In (p, d) (List.filter (fun e => in_group g e.1 && matches flt e.2) s)).
  { destruct n as [|n]; [discriminate|].
    destruct (List.filter _ s) as [|x l]; [discriminate|].
    simpl in H. injection H as -> _. left. reflexivity. }
  apply filter_In in Hin as [_ Hb].
  apply andb_true_iff in Hb as [Hb _]. exact Hb.
Qed.

Lemma query_step_in_group (fail : bool) (serial : string) (s s' : store)
    (p : path) (d : doc) (rest : list (path * doc)) :
  try_reraise (fs_group_query fail "devices"
     [("serialNumber", VStr serial); ("status", VStr "unlink")] 1) 500 s
    = (inr ((p, d) :: rest), s') ->
  in_group "devices" p = true.
Proof.
  unfold try_reraise, fs_group_query. destruct fail; [discriminate|].
  intros H. injection H as H _. eapply group_query_in_group; exact H.
Qed.

(** The handler from the query on: best-effort faults do not change the
    outcome. *)
Lemma link_device_from_serial_fst (ft : faults) (now : Z) (aid : string)
    (r : DeviceLinkRequest) (uid serial : string) (s : store) :
  (link_device_from_serial ft now aid r uid serial s).1 =
  (link_device_from_serial (critical_only ft) now aid r uid serial s).1.
Proof.
  unfold link_device_from_serial. cbn [fail_query critical_only].
  apply bind_fst_congr. intros docs s1 E.
  destruct docs as [|[p dd] rest]; [reflexivity|].
  pose proof (query_step_in_group _ _ _ _ _ _ _ E) as Hp.
  apply bind_fst_congr. intros pre_ref s2 _.
  apply bind_fst_congr. intros pre_doc s3 _.
  destruct pre_doc as [pre|]; [|reflexivity].
  destruct (link_copy_ok ft uid uid (dget dd "patientId") pre s3) as [c1 [C1 G1]].
  destruct (link_copy_ok (critical_only ft) uid uid (dget dd "patientId") pre s3)
    as [c2 [C2 G2]].
  rewrite (bind_inr _ _ _ _ _ C1), (bind_inr _ _ _ _ _ C2).
  apply link_commit_and_finish_fst; [reflexivity|exact Hp|congruence].
Qed.

(** [link_request.serial_number] is not an attribute of the model. *)
Lemma link_device_to_profile_attribute_error (ft : faults) (now : Z) (aid : string)
    (r : DeviceLinkRequest) (uid : string) (s : store) :
  link_device_to_profile ft now aid r uid s = (inl (PyError "AttributeError"), s).
Proof. reflexivity. Qed.

Lemma no_unlink_group_query (sn : string) (s : store) :
  no_unlink_device sn s = true ->
  group_query "devices" [("serialNumber", VStr sn); ("status", VStr "unlink")] 1 s = [].
Proof.
  unfold no_unlink_device, group_query. intros H.
  assert (Hnil : List.filter (fun e => in_group "devices" e.1 &&
            matches [("serialNumber", VStr sn); ("status", VStr "unlink")] e.2) s = []).
  { induction s as [|e s IH]; [reflexivity|].
    simpl in H. apply andb_true_iff in H as [He Hs].
    simpl. apply negb_true_iff in He. rewrite He. exact (IH Hs). }
  by rewrite Hnil.
Qed.

Lemma device_linked_no_unlink (sn uid : string) (s : store) :
  device_linked_to sn uid s = true -> no_unlink_device sn s = true.
Proof.
  unfold device_linked_to, no_unlink_device. intros H.
  apply andb_true_iff in H as [_ H].
  rewrite forallb_forall in H |- *. intros [p d] Hin. specialize (H _ Hin).
  simpl in *. apply negb_true_iff.
  destruct (in_group "devices" p); [|reflexivity]. simpl in *.
  unfold matches in *. simpl in *. rewrite !andb_true_r in *.
  destruct (bool_decide (d !! "serialNumber" = Some (VStr sn))); [|reflexivity].
  simpl in H. apply andb_true_iff in H as [Hst _].
  apply bool_decide_eq_true in Hst. rewrite Hst.
  apply bool_decide_eq_false. congruence.
Qed.

(** With no [unlink] device for the serial number, the handler from the
    query on stops with 404 (500 if the query raises) and writes nothing. *)
Lemma link_device_from_serial_no_device (ft : faults) (now : Z) (aid : string)
    (r : DeviceLinkRequest) (uid sn : string) (s : store) :
  no_unlink_device sn s = true ->
  link_device_from_serial ft now aid r uid sn s =
  (inl (HTTPException (if fail_query ft then 500 else 404)), s).
Proof.
  intros H. unfold link_device_from_serial.
  destruct (fail_query ft) eqn:Hq.
  - apply bind_inl. reflexivity.
  - rewrite (bind_inr _ _ s s []); [reflexivity|].
    unfold try_reraise, fs_group_query. rewrite no_unlink_group_query by exact H.
    reflexivity.
Qed.

(** The merge of step 5, field by field. *)
Lemma link_merge_lookup (pre cur : doc) (pid : value) (k : string) :
  link_merge pre cur pid !! k =
  if bool_decide (k = "patientId") then Some pid
  else if bool_decide (k = "lineId" \/ k = "lineProfile") then
    match cur !! k with Some v => Some v | None => pre !! k end
  else pre !! k.
Proof.
  unfold link_merge.
  destruct (decide (k = "patientId")) as [->|Hp].
  { rewrite bool_decide_true by done. by rewrite lookup_insert_eq. }
  rewrite bool_decide_false by done. rewrite lookup_insert_ne by congruence.
  destruct (decide (k = "lineId")) as [->|Hl].
  { rewrite bool_decide_true by auto.
    destruct (cur !! "lineId"); [by rewrite lookup_insert_eq|].
    destruct (cur !! "lineProfile"); [|done]. by rewrite lookup_insert_ne. }
  destruct (decide (k = "lineProfile")) as [->|Hlp].
  { rewrite bool_decide_true by auto.
    destruct (cur !! "lineId"); [rewrite lookup_insert_ne by done|];
    (destruct (cur !! "lineProfile"); [by rewrite lookup_insert_eq|done]). }
  rewrite bool_decide_false by tauto.
  destruct (cur !! "lineId"); [rewrite lookup_insert_ne by done|];
  (destruct (cur !! "lineProfile"); [by rewrite lookup_insert_ne|done]).
Qed.

(** On the sample, the handler from the query on does link: 200, and the
    caller's profile is the merged one. *)
Example link_device_from_serial_sample :
  let r := run_endpoint 200 (link_device_from_serial no_faults 7 "auto" sample_link_request "U" "S1")
             sample_store in
  r.1.1 = 200 /\
  st_get r.2 ["customers"; "U"] =
    Some (link_merge (<["displayName" := VStr "Ann"]> {[ "createDate" := VTime 5 ]}) ∅ (VStr "X")).
Proof. vm_compute. split; reflexivity. Qed.

(* ================================================================== *)
(** * The claims *)

(** C1 (link-device success path).  The claim: a request whose serial
    number matches an [unlink] device with an existing parent profile
    gets 200 and the caller's profile becomes the merged profile.  The
    handler builds its query from [link_request.serial_number], which is
    not an attribute of the pydantic model (its field is [serialNumber]),
    so every request that passes validation ends in an uncaught
    [AttributeError] (500) before any read or write; invalid bodies get
    422.  No request ever gets 200. *)
Theorem link_device_endpoint_never_links (ft : faults) (now : Z) (aid : string)
    (req_body : gmap string value) (uid : string) (s : store) :
  link_device_endpoint ft now aid req_body uid s =
  ((match DeviceLinkRequest_validate req_body with Some _ => 500 | None => 422 end, BNone), s).
Proof.
  unfold link_device_endpoint. destruct (DeviceLinkRequest_validate req_body) as [r|]; [|done].
  unfold run_endpoint. by rewrite link_device_to_profile_attribute_error.
Qed.

(** C2 (no matching device).  The claim: with no [unlink] device for the
    serial number, link-device answers 404 and writes nothing.  Nothing is
    written, but the answer is 500: the [AttributeError] on
    [link_request.serial_number] comes first.  The handler from the query
    on would answer 404 (500 if the query itself raises). *)
Theorem link_device_no_device_answers_500 (ft : faults) (now : Z) (aid : string)
    (req_body : gmap string value) (r : DeviceLinkRequest) (uid : string) (s : store) :
  DeviceLinkRequest_validate req_body = Some r ->
  no_unlink_device (serialNumber r) s = true ->
  link_device_endpoint ft now aid req_body uid s = ((500, BNone), s) /\
  run_endpoint 200 (link_device_from_serial ft now aid r uid (serialNumber r)) s =
    ((if fail_query ft then 500 else 404, BNone), s).
Proof.
  intros Hv Hn. split.
  - unfold link_device_endpoint. rewrite Hv. unfold run_endpoint.
    by rewrite link_device_to_profile_attribute_error.
  - unfold run_endpoint. rewrite link_device_from_serial_no_device by exact Hn.
    by destruct (fail_query ft).
Qed.

Lemma link_device_no_device_answers_500_witness :
  DeviceLinkRequest_validate sample_link_body = Some sample_link_request /\
  no_unlink_device "S1" [] = true /\
  link_device_endpoint no_faults 7 "auto" sample_link_body "U" [] = ((500, BNone), []) /\
  run_endpoint 200 (link_device_from_serial no_faults 7 "auto" sample_link_request "U" "S1") [] =
    ((404, BNone), []).
Proof.
  split; [reflexivity|]. split; [reflexivity|].
  exact (link_device_no_device_answers_500 no_faults 7 "auto" sample_link_body
           sample_link_request "U" [] eq_refl eq_refl).
Defined.

(** C3 (a second link-device call).  When every device with the serial
    number has been flipped to [active] and carries the caller's id, a
    further link-device call leaves the whole store, hence the caller's
    profile, unchanged and does not answer 200; the same holds for the
    handler from the query on (it stops with 404). *)
Theorem link_device_repeat_keeps_profile (ft : faults) (now : Z) (aid : string)
    (req_body : gmap string value) (r : DeviceLinkRequest) (uid : string) (s : store) :
  DeviceLinkRequest_validate req_body = Some r ->
  device_linked_to (serialNumber r) uid s = true ->
  let res := link_device_endpoint ft now aid req_body uid s in
  let res' := run_endpoint 200 (link_device_from_serial ft now aid r uid (serialNumber r)) s in
  res.2 = s /\ res.1.1 <> 200 /\ res'.2 = s /\ res'.1.1 <> 200.
Proof.
  intros Hv Hl res res'. subst res res'.
  unfold link_device_endpoint. rewrite Hv. unfold run_endpoint.
  rewrite link_device_to_profile_attribute_error.
  rewrite link_device_from_serial_no_device by (apply (device_linked_no_unlink _ uid); exact Hl).
  simpl. repeat split; try done; destruct (fail_query ft); discriminate.
Qed.

Lemma link_device_repeat_keeps_profile_witness :
  let s := [(["customers"; "P"; "devices"; "d1"],
             <["serialNumber" := VStr "S1"]>
             (<["status" := VStr "active"]> {[ "customerId" := VStr "U" ]}))] in
  DeviceLinkRequest_validate sample_link_body = Some sample_link_request /\
  device_linked_to "S1" "U" s = true /\
  (link_device_endpoint no_faults 7 "auto" sample_link_body "U" s).2 = s.
Proof.
  intros s. split; [reflexivity|]. split; [vm_compute; reflexivity|].
  apply (link_device_repeat_keeps_profile no_faults 7 "auto" sample_link_body
           sample_link_request "U" s eq_refl); vm_compute; reflexivity.
Defined.

(** C4 (the link-device request body).  The claim: a body with only
    [serial_number] passes validation.  [DeviceLinkRequest.deviceNumber]
    is a required field ([Field(...)]), so such a body is rejected. *)
Lemma link_request_without_device_number_rejected :
  DeviceLinkRequest_validate {[ "serial_number" := VStr "S1" ]} = None /\
  link_device_endpoint no_faults 7 "auto" {[ "serial_number" := VStr "S1" ]} "U" sample_store =
    ((422, BNone), sample_store).
Proof. split; reflexivity. Qed.

(** C4, amended.  A link-device body passes validation exactly when it
    holds a string serial number and a string device number of exactly
    three characters (each read under its snake_case alias, else under its
    field name); a body that fails, in particular one without a device
    number, gets 422 and the handler never runs. *)
Theorem link_request_validation (req_body : gmap string value) :
  (is_Some (DeviceLinkRequest_validate req_body) <->
   (exists sn, match req_body !! "serial_number" with
               | Some v => Some v | None => req_body !! "serialNumber" end = Some (VStr sn)) /\
   (exists dn, match req_body !! "device_number" with
               | Some v => Some v | None => req_body !! "deviceNumber" end = Some (VStr dn)
               /\ String.length dn = 3%nat)) /\
  (DeviceLinkRequest_validate req_body = None ->
   forall ft now aid uid s, link_device_endpoint ft now aid req_body uid s = ((422, BNone), s)).
Proof.
  split.
  - unfold DeviceLinkRequest_validate.
    change (to_snake_case "serialNumber") with "serial_number".
    change (to_snake_case "deviceNumber") with "device_number". cbv zeta.
    destruct (match req_body !! "serial_number" with
              | Some v => Some v | None => req_body !! "serialNumber" end) as [[]|];
    destruct (match req_body !! "device_number" with
              | Some v => Some v | None => req_body !! "deviceNumber" end) as [[]|];
    split; intros H;
    repeat match goal with
           | H : is_Some None |- _ => destruct H as [? H]; discriminate
           | H : (exists _, _) /\ (exists _, _) |- _ =>
               destruct H as [[? ?] [? [? ?]]]; try discriminate
           end;
    try (destruct (Nat.eqb (String.length s0) 3) eqn:E; [|destruct H as [? H]; discriminate]);
    try (split; eexists; [reflexivity|split; [reflexivity|apply Nat.eqb_eq; exact E]]).
    all: try (match goal with
              | H : Some (VStr _) = Some (VStr ?d) |- _ => injection H as <-
              end; match goal with
              | H : String.length _ = 3%nat |- _ => apply Nat.eqb_eq in H; rewrite H; eexists; reflexivity
              end).
  - intros Hn ft now aid uid s. unfold link_device_endpoint. by rewrite Hn.
Qed.

Lemma link_request_validation_witness :
  DeviceLinkRequest_validate {[ "serial_number" := VStr "S1" ]} = None /\
  link_device_endpoint no_faults 7 "auto" {[ "serial_number" := VStr "S1" ]} "U" [] =
    ((422, BNone), []).
Proof.
  split; [reflexivity|].
  exact (proj2 (link_request_validation {[ "serial_number" := VStr "S1" ]}) eq_refl
           no_faults 7 "auto" "U" []).
Defined.

(** C5 (best-effort steps).  A fault in a best-effort step (the copy into
    [patient_list], the device status update, the device record under the
    caller) never changes the status code or the body: the answer equals
    the answer with those steps succeeding, both for the endpoint and for
    the handler from the query on. *)
Theorem link_device_best_effort_faults_absorbed (ft : faults) (now : Z) (aid : string)
    (req_body : gmap string value) (uid : string) (s : store) :
  (link_device_endpoint ft now aid req_body uid s).1 =
  (link_device_endpoint (critical_only ft) now aid req_body uid s).1 /\
  forall (r : DeviceLinkRequest) (serial : string),
    (run_endpoint 200 (link_device_from_serial ft now aid r uid serial) s).1 =
    (run_endpoint 200 (link_device_from_serial (critical_only ft) now aid r uid serial) s).1.
Proof.
  split.
  - unfold link_device_endpoint. destruct (DeviceLinkRequest_validate req_body) as [r|]; [|done].
    apply run_endpoint_fst. unfold link_device_to_profile.
    apply bind_fst_congr. intros serial s' _. apply link_device_from_serial_fst.
  - intros r serial. apply run_endpoint_fst. apply link_device_from_serial_fst.
Qed.

(* ------------------------------------------------------------------ *)
(** ** Lemmas for profile creation, reports, clinicians *)

Lemma model_dump_by_alias_none (fs : list (string * option value)) (k : string) :
  Forall (fun nv => to_snake_case nv.1 <> k) fs -> model_dump_by_alias fs !! k = None.
Proof.
  induction 1 as [|[n ov] fs Hn _ IH]; [reflexivity|].
  simpl in *. destruct ov; [|exact IH].
  rewrite lookup_insert_ne by congruence. exact IH.
Qed.

(** The dump is keyed by aliases: no camelCase key survives. *)
Lemma CustomerProfilePayload_dump_camel (p : CustomerProfilePayload) :
  model_dump_by_alias (CustomerProfilePayload_fields p) !! "displayName" = None /\
  model_dump_by_alias (CustomerProfilePayload_fields p) !! "firstName" = None /\
  model_dump_by_alias (CustomerProfilePayload_fields p) !! "lastName" = None.
Proof.
  split; [|split]; apply model_dump_by_alias_none;
    repeat constructor; simpl; intros H; vm_compute in H; discriminate.
Qed.

Lemma value_cmp_antisym (a b : value) : value_cmp b a = CompOpp (value_cmp a b).
Proof.
  unfold value_cmp. rewrite (Z.compare_antisym (type_rank a) (type_rank b)).
  destruct (Z.compare (type_rank a) (type_rank b)) eqn:E; simpl; [|reflexivity|reflexivity].
  destruct a, b; simpl; try reflexivity.
  - destruct b0, b; reflexivity.
  - apply Z.compare_antisym.
  - apply Z.compare_antisym.
  - apply String.compare_antisym.
Qed.

(** Consecutive reports are in non-increasing [field] order. *)
Definition desc_by (field : string) (a b : path * doc) : Prop :=
  value_cmp (dget a.2 field) (dget b.2 field) <> Lt.

Lemma insert_desc_hd (field : string) (x y : path * doc) (l : list (path * doc)) :
  desc_by field y x -> HdRel (desc_by field) y l ->
  HdRel (desc_by field) y (insert_desc field x l).
Proof.
  intros Hyx Hl. destruct l as [|z l]; simpl.
  - by constructor.
  - inversion Hl; subst.
    destruct (value_cmp (dget x.2 field) (dget z.2 field)); by constructor.
Qed.

Lemma insert_desc_sorted (field : string) (x : path * doc) (l : list (path * doc)) :
  Sorted (desc_by field) l -> Sorted (desc_by field) (insert_desc field x l).
Proof.
  induction 1 as [|y l Hl IH Hhd]; simpl.
  - by repeat constructor.
  - destruct (value_cmp (dget x.2 field) (dget y.2 field)) eqn:E.
    + constructor; [by constructor|]. constructor. unfold desc_by. by rewrite E.
    + constructor; [exact IH|]. apply insert_desc_hd; [|exact Hhd].
      unfold desc_by. rewrite value_cmp_antisym, E. discriminate.
    + constructor; [by constructor|]. constructor. unfold desc_by. by rewrite E.
Qed.

Lemma sort_desc_sorted (field : string) (l : list (path * doc)) :
  Sorted (desc_by field) (sort_desc field l).
Proof.
  induction l as [|x l IH]; simpl; [constructor|]. by apply insert_desc_sorted.
Qed.

Lemma Sorted_take {A} (R : A -> A -> Prop) (n : nat) (l : list A) :
  Sorted R l -> Sorted R (take n l).
Proof.
  revert l. induction n as [|n IH]; intros l H; [constructor|].
  destruct H as [|x l Hl Hhd]; simpl; [constructor|].
  constructor; [by apply IH|].
  destruct Hhd; destruct n; simpl; by constructor.
Qed.

Lemma validate_reports_length (l : list (path * doc)) (s s' : store) (ds : list doc) :
  validate_reports l s = (inr ds, s') -> length ds = length l /\ s' = s.
Proof.
  revert ds s'. induction l as [|[p d] l IH]; intros ds s' H; cbn [validate_reports] in H.
  - by injection H as <- <-.
  - destruct (model_validate DailyReport_fields _); [|discriminate].
    unfold bind in H. destruct (validate_reports l s) as [[e|rs] s1] eqn:E; [discriminate|].
    destruct (IH _ _ eq_refl) as [Hl ->].
    injection H as <- <-. simpl. by rewrite Hl.
Qed.

Lemma limit_param_range (limit : option Z) (n : nat) :
  limit_param limit = Some n -> (1 <= n <= 100)%nat.
Proof.
  unfold limit_param. destruct ((1 <=? default 30 limit) && (default 30 limit <=? 100)) eqn:E;
    [|discriminate].
  intros H. injection H as <-. apply andb_true_iff in E as [E1 E2].
  apply Z.leb_le in E1. apply Z.leb_le in E2. lia.
Qed.

(** The clinician's [assignedPatients] does not list the patient: no
    clinician document, no such field (read as [[]]), or a list without it. *)
Definition not_assigned (clinician_uid patientId : string) (s : store) : bool :=
  match st_get s ["clinicians"; clinician_uid] with
  | None => true
  | Some c =>
      match c !! "assignedPatients" with
      | None => true
      | Some (VStrList l) => negb (bool_decide (patientId ∈ l))
      | Some _ => false
      end
  end.

Lemma check_assigned_403 (uid pid : string) (s : store) :
  not_assigned uid pid s = true -> check_assigned uid pid s = (inl (HTTPException 403), s).
Proof.
  unfold not_assigned, check_assigned. intros H.
  rewrite (bind_inr _ _ s s (st_get s ["clinicians"; uid])) by reflexivity.
  destruct (st_get s ["clinicians"; uid]) as [c|]; [|reflexivity].
  destruct (c !! "assignedPatients") as [[]|] eqn:E; try discriminate; simpl.
  - rewrite (bind_inr _ _ s s (bool_decide (pid ∈ l))) by reflexivity.
    apply negb_true_iff in H. by rewrite H.
  - reflexivity.
Qed.

(** C6 (profile creation).  The claim: an existing profile gives 409 and
    no write; an absent one gives 201 with [setupDate] stamped.  The 409
    half holds.  When no profile exists the handler dumps the payload by
    alias ([display_name], [first_name], ...) and then looks for the
    camelCase key ['displayName'], which is never there: every creation
    is refused with 422 and nothing is written. *)
Theorem create_customer_profile_outcomes (fail_set : bool) (now : Z)
    (customer_in : CustomerProfilePayload) (uid : string) (s : store) :
  (is_Some (st_get s ["customers"; uid]) ->
   create_customer_endpoint fail_set now customer_in uid s = ((409, BNone), s)) /\
  (st_get s ["customers"; uid] = None ->
   create_customer_endpoint fail_set now customer_in uid s = ((422, BNone), s)).
Proof.
  unfold create_customer_endpoint, run_endpoint, create_customer_profile.
  rewrite (bind_inr _ _ s s (st_get s ["customers"; uid])) by reflexivity.
  split; intros H.
  - rewrite bool_decide_true by exact H. reflexivity.
  - rewrite H, bool_decide_false by (intros [? ?]; discriminate).
    destruct (CustomerProfilePayload_dump_camel customer_in) as [Hd [Hf Hl]].
    rewrite Hd, Hf. rewrite bool_decide_true by exact Hd. reflexivity.
Qed.

Lemma create_customer_profile_outcomes_witness :
  let p := mkCustomerProfilePayload None (Some (VStr "Ann")) None None None None
             None None None None None None None in
  is_Some (st_get sample_store ["customers"; "P"]) /\
  create_customer_endpoint false 9 p "P" sample_store = ((409, BNone), sample_store) /\
  st_get sample_store ["customers"; "U"] = None /\
  create_customer_endpoint false 9 p "U" sample_store = ((422, BNone), sample_store).
Proof.
  intros p. pose proof (create_customer_profile_outcomes false 9 p "P" sample_store) as [A _].
  pose proof (create_customer_profile_outcomes false 9 p "U" sample_store) as [_ B].
  split; [eexists; reflexivity|]. split; [apply A; eexists; reflexivity|].
  split; [reflexivity|]. apply B; reflexivity.
Defined.

(** C7 (daily reports).  The listing half holds: for a limit that passes
    [Query(30, ge=1, le=100)] (30 when omitted), a successful listing has
    as many items as the query streamed, at most the limit, and the query
    streams them in non-increasing [reportDate] order.  The submission
    half fails: [report_in.report_date] is not an attribute of the model
    (its field is [reportDate]), so every submission ends in an uncaught
    [AttributeError] (500) and writes nothing. *)
Theorem daily_reports_listing_and_submit (limit : option Z) (n : nat) (uid : string)
    (s s' : store) (ds : list doc) :
  limit_param None = Some 30%nat /\
  (limit_param limit = Some n ->
   get_my_daily_reports n uid s = (inr (BDocs ds), s') ->
   (1 <= n <= 100)%nat /\ (length ds <= n)%nat /\ s' = s /\
   length ds = length (order_by_desc_limit ["customers"; uid; "dailyReports"] "reportDate" n s) /\
   Sorted (desc_by "reportDate")
     (order_by_desc_limit ["customers"; uid; "dailyReports"] "reportDate" n s)) /\
  (forall (fail_set : bool) (report_in : DailyReportCreate) (t : store),
   submit_daily_report_endpoint fail_set report_in uid t = ((500, BNone), t)).
Proof.
  split; [reflexivity|]. split.
  - intros Hlim H. pose proof (limit_param_range _ _ Hlim) as Hr.
    unfold get_my_daily_reports in H.
    set (q := order_by_desc_limit ["customers"; uid; "dailyReports"] "reportDate" n s) in *.
    rewrite (bind_inr _ _ s s q) in H by reflexivity.
    unfold bind in H. destruct (validate_reports q s) as [[e|rs] s1] eqn:E; [discriminate|].
    injection H as <- <-. destruct (validate_reports_length _ _ _ _ E) as [Hl ->].
    assert (Hq : (length q <= n)%nat) by (subst q; unfold order_by_desc_limit; rewrite length_take; lia).
    repeat split; try lia.
    subst q. unfold order_by_desc_limit. apply Sorted_take, sort_desc_sorted.
  - intros fail_set report_in t. reflexivity.
Qed.

Lemma daily_reports_listing_and_submit_witness :
  limit_param (Some 2) = Some 2%nat /\
  get_my_daily_reports 2 "U" [] = (inr (BDocs []), []) /\
  (length (@nil doc) <= 2)%nat.
Proof.
  split; [reflexivity|]. split; [reflexivity|].
  exact (proj1 (proj2 (proj1 (proj2 (daily_reports_listing_and_submit (Some 2) 2 "U" [] [] []))
           eq_refl eq_refl))).
Defined.

(** C8 (clinician access).  When the clinician's [assignedPatients] does
    not list the patient, both patient endpoints answer 403 (422 for a
    report limit outside [1, 100]) with no write, and the answer is the
    same for any two stores that agree on the clinician's document, in
    particular whether or not the patient's document exists. *)
Theorem clinician_unassigned_forbidden (uid pid : string) (limit : option Z) (s1 s2 : store) :
  st_get s1 ["clinicians"; uid] = st_get s2 ["clinicians"; uid] ->
  not_assigned uid pid s1 = true ->
  get_patient_profile_endpoint uid pid s1 = ((403, BNone), s1) /\
  get_patient_profile_endpoint uid pid s2 = ((403, BNone), s2) /\
  get_patient_daily_reports_endpoint limit uid pid s1 =
    ((if limit_param limit then 403 else 422, BNone), s1) /\
  get_patient_daily_reports_endpoint limit uid pid s2 =
    ((if limit_param limit then 403 else 422, BNone), s2).
Proof.
  intros Hc H1.
  assert (H2 : not_assigned uid pid s2 = true) by (unfold not_assigned in *; by rewrite <- Hc).
  unfold get_patient_profile_endpoint, get_patient_daily_reports_endpoint, run_endpoint,
    get_patient_profile, get_patient_daily_reports.
  rewrite (bind_inl _ _ s1 s1 (HTTPException 403)) by (apply check_assigned_403; exact H1).
  rewrite (bind_inl _ _ s2 s2 (HTTPException 403)) by (apply check_assigned_403; exact H2).
  destruct (limit_param limit) as [n|]; [|repeat split].
  rewrite (bind_inl _ _ s1 s1 (HTTPException 403)) by (apply check_assigned_403; exact H1).
  rewrite (bind_inl _ _ s2 s2 (HTTPException 403)) by (apply check_assigned_403; exact H2).
  repeat split.
Qed.

Lemma clinician_unassigned_forbidden_witness :
  let s2 := (["clinicians"; "C"], {[ "assignedPatients" := VStrList ["Q"] ]}) :: sample_store in
  let s1 := [(["clinicians"; "C"], {[ "assignedPatients" := VStrList ["Q"] ]})] in
  st_get s1 ["clinicians"; "C"] = st_get s2 ["clinicians"; "C"] /\
  not_assigned "C" "P" s1 = true /\
  get_patient_profile_endpoint "C" "P" s2 = ((403, BNone), s2).
Proof.
  intros s2 s1. split; [reflexivity|]. split; [reflexivity|].
  exact (proj1 (proj2 (clinician_unassigned_forbidden "C" "P" None s1 s2 eq_refl eq_refl))).
Defined.

(** C9 (remote verification).  The claim: a matching client id with a
    'sub' field present yields that 'sub'.  An empty 'sub' is present
    but falsy, and the handler refuses it with 401. *)
Lemma verify_line_token_empty_sub :
  verify_line_token "CH"
    (HttpReply 200 (JObject (<["client_id" := VStr "CH"]> {[ "sub" := VStr "" ]})))
  = inl (HTTPException 401).
Proof. reflexivity. Qed.

(** C9, amended.  For an accepted (2xx) reply whose body is a JSON object:
    a client id other than the channel id gives 401; a matching client id
    with a missing or falsy 'sub' (null, empty string, 0, false, empty
    array or object) gives 401; a matching client id with a truthy 'sub'
    returns exactly that value.  The function has no store: it writes
    nothing. *)
Theorem verify_line_token_outcomes (chan : string) (code : Z) (data : gmap string value) :
  200 <= code < 300 ->
  (dget data "client_id" <> VStr chan ->
   verify_line_token chan (HttpReply code (JObject data)) = inl (HTTPException 401)) /\
  (dget data "client_id" = VStr chan -> truthy (dget data "sub") = false ->
   verify_line_token chan (HttpReply code (JObject data)) = inl (HTTPException 401)) /\
  (forall v, dget data "client_id" = VStr chan -> data !! "sub" = Some v -> truthy v = true ->
   verify_line_token chan (HttpReply code (JObject data)) = inr v).
Proof.
  intros Hc. unfold verify_line_token.
  assert (Hok : (200 <=? code) && (code <? 300) = true).
  { apply andb_true_iff. split; [apply Z.leb_le|apply Z.ltb_lt]; lia. }
  rewrite Hok. simpl. split; [|split].
  - intros Hne. by rewrite bool_decide_false.
  - intros Heq Hs. rewrite bool_decide_true by exact Heq. simpl. by rewrite Hs.
  - intros v Heq Hv Ht. rewrite bool_decide_true by exact Heq. simpl.
    unfold dget. rewrite Hv. simpl. by rewrite Ht.
Qed.

Lemma verify_line_token_outcomes_witness :
  200 <= 200 < 300 /\
  verify_line_token "CH"
    (HttpReply 200 (JObject (<["client_id" := VStr "CH"]> {[ "sub" := VStr "U1" ]})))
  = inr (VStr "U1").
Proof.
  split; [lia|].
  apply (proj2 (proj2 (verify_line_token_outcomes "CH" 200
           (<["client_id" := VStr "CH"]> {[ "sub" := VStr "U1" ]}) ltac:(lia))));
    reflexivity.
Defined.

(** C10 (link-account never overwrites a line id).  Let the first device
    with the serial number sit under the customer document [cref] with
    data [c], and let the caller's line id be non-empty (the dependency
    only yields truthy ids).  A truthy stored [lineId] other than the
    caller's gives 409 with no write; the caller's own gives 204 with no
    write; the store changes only when the stored [lineId] is missing or
    falsy, and then only by setting the caller's id. *)
Theorem link_account_never_overwrites (sn lid : string) (s : store) (p : path) (dd : doc)
    (rest : list (path * doc)) (cref : path) (c : doc) :
  lid <> "" ->
  group_query "devices" [("serialNumber", VStr sn)] 1 s = (p, dd) :: rest ->
  parent_parent p = Some cref ->
  st_get s cref = Some c ->
  let r := link_account_endpoint sn lid s in
  (truthy (dget c "lineId") = true -> dget c "lineId" <> VStr lid -> r = ((409, BNone), s)) /\
  (dget c "lineId" = VStr lid -> r = ((204, BNone), s)) /\
  (truthy (dget c "lineId") = false ->
   r = ((204, BNone), st_set s cref ({[ "lineId" := VStr lid ]} ∪ c))) /\
  (r.2 <> s -> truthy (dget c "lineId") = false).
Proof.
  intros Hlid Hq Hp Hc r. subst r.
  unfold link_account_endpoint, run_endpoint, link_account, bind, fs_get, raise, ret, fs_update.
  cbv beta iota. rewrite Hq. cbv beta iota. rewrite Hp. cbv beta iota. rewrite Hc.
  cbv beta iota.
  assert (En : encodable {[ "lineId" := VStr lid ]} = true) by (vm_compute; reflexivity).
  destruct (truthy (dget c "lineId")) eqn:T; simpl.
  - destruct (bool_decide (dget c "lineId" = VStr lid)) eqn:B; simpl.
    + apply bool_decide_eq_true in B.
      split; [intros _ H0; congruence|].
      split; [intros _; reflexivity|].
      split; [intros; discriminate|].
      intros H; contradiction.
    + apply bool_decide_eq_false in B.
      split; [intros _ _; reflexivity|].
      split; [intros H; contradiction|].
      split; [intros; discriminate|].
      intros H; contradiction.
  - rewrite Hc, En.
    split; [intros; discriminate|].
    split; [intros H; rewrite H in T; simpl in T; destruct lid; [contradiction|discriminate]|].
    split; [intros _; reflexivity|].
    intros _; reflexivity.
Qed.

Lemma link_account_never_overwrites_witness :
  let c := <["displayName" := VStr "Ann"]> {[ "createDate" := VTime 5 ]} in
  let dd := <["serialNumber" := VStr "S1"]>
              (<["status" := VStr "unlink"]> {[ "patientId" := VStr "X" ]}) in
  "L1" <> "" /\
  group_query "devices" [("serialNumber", VStr "S1")] 1 sample_store =
    [(["customers"; "P"; "devices"; "d1"], dd)] /\
  parent_parent ["customers"; "P"; "devices"; "d1"] = Some ["customers"; "P"] /\
  st_get sample_store ["customers"; "P"] = Some c /\
  link_account_endpoint "S1" "L1" sample_store =
    ((204, BNone), st_set sample_store ["customers"; "P"] ({[ "lineId" := VStr "L1" ]} ∪ c)).
Proof.
  intros c dd.
  assert (Hq : group_query "devices" [("serialNumber", VStr "S1")] 1 sample_store =
                 [(["customers"; "P"; "devices"; "d1"], dd)]) by reflexivity.
  assert (Hp : parent_parent ["customers"; "P"; "devices"; "d1"] = Some ["customers"; "P"])
    by reflexivity.
  assert (Hc : st_get sample_store ["customers"; "P"] = Some c) by reflexivity.
  split; [discriminate|]. split; [exact Hq|]. split; [exact Hp|]. split; [exact Hc|].
  apply (proj1 (proj2 (proj2 (link_account_never_overwrites "S1" "L1" sample_store
           ["customers"; "P"; "devices"; "d1"] dd [] ["customers"; "P"] c
           ltac:(discriminate) Hq Hp Hc)))).
  reflexivity.
Defined.

(* ================================================================== *)
(** * Further properties of the handlers *)

(** ** Helper lemmas *)





Lemma st_set_fresh (s : store) (p : path) (d : doc) :
  st_get s p = None -> st_set s p d = s ++ [(p, d)].
Proof.
  induction s as [|[q d0] s IH]; simpl; [reflexivity|].
  destruct (decide (q = p)); [discriminate|]. intros H. f_equal. exact (IH H).
Qed.

Lemma st_get_elem (s : store) (p : path) (d : doc) :
  st_get s p = Some d -> (p, d) ∈ s.
Proof.
  induction s as [|[q d0] s IH]; simpl; [discriminate|].
  destruct (decide (q = p)) as [->|]; intros H.
  - injection H as ->. apply elem_of_cons. by left.
  - apply elem_of_cons. right. auto.
Qed.

Lemma elem_of_map_2 {A B} (f : A -> B) (l : list A) (x : A) :
  x ∈ l -> f x ∈ map f l.
Proof. rewrite !list_elem_of_In. apply in_map. Qed.

Lemma mapM_elem {A B} (f : A -> option B) (l : list A) (k : list B) (x : A) (y : B) :
  mapM f l = Some k -> x ∈ l -> f x = Some y -> y ∈ k.
Proof.
  intros Hm Hx Hf. apply mapM_Some_1 in Hm.
  apply list_elem_of_lookup_1 in Hx as [i Hi].
  destruct (Forall2_lookup_l _ _ _ _ _ Hm Hi) as [z [Hz Hfz]].
  rewrite Hf in Hfz. injection Hfz as ->. eapply list_elem_of_lookup_2; eauto.
Qed.

Lemma mapM_none_of_elem {A B} (f : A -> option B) (l : list A) (x : A) :
  x ∈ l -> f x = None -> mapM f l = None.
Proof.
  intros Hx Hf. destruct (mapM f l) as [k|] eqn:Hm; [|reflexivity].
  apply mapM_Some_1 in Hm. apply list_elem_of_lookup_1 in Hx as [i Hi].
  destruct (Forall2_lookup_l _ _ _ _ _ Hm Hi) as [z [_ Hfz]]. congruence.
Qed.

Lemma mapM_length {A B} (f : A -> option B) (l : list A) (k : list B) :
  mapM f l = Some k -> length k = length l.
Proof. intros Hm. apply mapM_Some_1, Forall2_length in Hm. by rewrite Hm. Qed.


Lemma model_dump_by_alias_keys (fs : list (string * option value)) (k : string) :
  is_Some (model_dump_by_alias fs !! k) -> k ∈ map (fun nv => to_snake_case nv.1) fs.
Proof.
  induction fs as [|[n ov] fs IH]; simpl.
  - rewrite lookup_empty. intros [? H]; discriminate.
  - destruct ov as [v|]; intros H; apply elem_of_cons.
    + destruct (decide (to_snake_case n = k)) as [<-|Hne]; [by left|].
      right. apply IH. by rewrite lookup_insert_ne in H.
    + right. by apply IH.
Qed.

Lemma model_dump_by_alias_lookup (fs : list (string * option value)) (n : string) (ov : option value) :
  (n, ov) ∈ fs -> NoDup (map (fun nv => to_snake_case nv.1) fs) ->
  model_dump_by_alias fs !! to_snake_case n = ov.
Proof.
  induction fs as [|[n' ov'] fs IH]; intros Hin Hnd; [by apply elem_of_nil in Hin|].
  simpl in Hnd. apply NoDup_cons in Hnd as [Hn' Hnd].
  apply elem_of_cons in Hin as [Heq|Hin].
  - injection Heq as -> ->. simpl. destruct ov' as [v|].
    + apply lookup_insert_eq.
    + apply model_dump_by_alias_none. apply Forall_forall. intros [m ow] Hm Heq.
      apply Hn'. rewrite <- Heq. exact (elem_of_map_2 (fun nv => to_snake_case nv.1) _ _ Hm).
  - assert (Hne : to_snake_case n' <> to_snake_case n).
    { intros Heq. apply Hn'. rewrite Heq.
      exact (elem_of_map_2 (fun nv => to_snake_case nv.1) _ _ Hin). }
    simpl. destruct ov' as [v|].
    + rewrite lookup_insert_ne by exact Hne. by apply IH.
    + by apply IH.
Qed.

(** What a 201 from one of the add endpoints means: the body validated,
    the generated id was free, exactly one document was appended, and
    its read-back validated. *)
Lemma add_sub_item_success (vi : doc -> option doc) (cf : list field_spec)
    (vo : doc -> option doc) (coll id_key : string) (fail : bool) (now : Z)
    (aid : string) (b : doc) (uid : string) (s : store) (out : body) (s' : store) :
  add_sub_item_endpoint vi cf vo coll id_key fail now aid b uid s = ((201, out), s') ->
  exists item_in r,
    vi b = Some item_in /\
    st_get s ["customers"; uid; coll; aid] = None /\
    s' = s ++ [(["customers"; uid; coll; aid],
                <["addedDate" := VTime now]> (dump_model cf item_in))] /\
    vo (<[id_key := VStr aid]> (<["addedDate" := VTime now]> (dump_model cf item_in))) = Some r /\
    out = BDoc r.
Proof.
  unfold add_sub_item_endpoint. destruct (vi b) as [item_in|]; [|discriminate].
  unfold run_endpoint, add_sub_item, bind, fs_create, fs_set, fs_get. simpl.
  destruct fail; [discriminate|].
  destruct (st_get s ["customers"; uid; coll; aid]) eqn:Hp; [discriminate|].
  destruct (encodable _); [|discriminate].
  rewrite st_get_set_eq.
  destruct (vo _) as [r|] eqn:Hv; [|discriminate].
  intros [= <- <-]. exists item_in, r. repeat split; try assumption.
  by apply st_set_fresh.
Qed.

Lemma dump_model_keys (cf : list field_spec) (r : doc) (now : Z) (k : string) :
  is_Some ((<["addedDate" := VTime now]> (dump_model cf r)) !! k) ->
  k ∈ "addedDate" :: map (fun f => to_snake_case (f_name f)) cf.
Proof.
  rewrite lookup_insert_is_Some. intros [<-|[_ H]]; apply elem_of_cons; [by left|right].
  apply model_dump_by_alias_keys in H. by rewrite map_map in H.
Qed.

Lemma add_sub_item_then_list (vi : doc -> option doc) (cf : list field_spec)
    (vo : doc -> option doc) (coll id_key : string) (fail : bool) (now : Z)
    (aid : string) (b : doc) (uid : string) (s : store) (out : body) (s' : store)
    (items : list doc) (s'' : store) :
  add_sub_item_endpoint vi cf vo coll id_key fail now aid b uid s = ((201, out), s') ->
  list_sub_items_endpoint vo coll id_key uid s' = ((200, BDocs items), s'') ->
  exists r, out = BDoc r /\ r ∈ items.
Proof.
  intros Ha Hl.
  destruct (add_sub_item_success _ _ _ _ _ _ _ _ _ _ _ _ _ Ha)
    as (item_in & r & _ & _ & -> & Hv & ->).
  exists r. split; [reflexivity|].
  unfold list_sub_items_endpoint, list_sub_items, run_endpoint in Hl.
  unfold bind in Hl. cbv beta iota in Hl.
  destruct (mapM _ _) as [items'|] eqn:Hm; [|discriminate].
  injection Hl as <- _.
  refine (mapM_elem _ _ _ (["customers"; uid; coll; aid], _) _ Hm _ Hv).
  apply list_elem_of_In, filter_In. split.
  - apply in_or_app. right. left. reflexivity.
  - apply bool_decide_eq_true. split; reflexivity.
Qed.

Lemma dump_model_lookup (cf : list field_spec) (r : doc) (f : field_spec) :
  NoDup (map (fun g => to_snake_case (f_name g)) cf) -> f ∈ cf ->
  dump_model cf r !! to_snake_case (f_name f) = r !! f_name f.
Proof.
  intros Hnd Hf. unfold dump_model. apply model_dump_by_alias_lookup.
  - exact (elem_of_map_2 (fun g => (f_name g, r !! f_name g)) _ _ Hf).
  - rewrite map_map. exact Hnd.
Qed.

(** A 201 from an add endpoint stores the validated input by alias. *)
Lemma add_sub_item_stored (vi : doc -> option doc) (cf : list field_spec)
    (vo : doc -> option doc) (coll id_key : string) (fail : bool) (now : Z)
    (aid : string) (b : doc) (uid : string) (s : store) (out : body) (s' : store) :
  NoDup ("addedDate" :: map (fun f => to_snake_case (f_name f)) cf) ->
  add_sub_item_endpoint vi cf vo coll id_key fail now aid b uid s = ((201, out), s') ->
  exists item_in d,
    vi b = Some item_in /\
    st_get s ["customers"; uid; coll; aid] = None /\
    s' = s ++ [(["customers"; uid; coll; aid], d)] /\
    d !! "addedDate" = Some (VTime now) /\
    (forall f, f ∈ cf -> d !! to_snake_case (f_name f) = item_in !! f_name f) /\
    (forall k, is_Some (d !! k) -> k ∈ "addedDate" :: map (fun f => to_snake_case (f_name f)) cf).
Proof.
  intros Hnd Ha.
  destruct (add_sub_item_success _ _ _ _ _ _ _ _ _ _ _ _ _ Ha)
    as (item_in & r & Hi & Hfree & -> & _ & _).
  exists item_in, (<["addedDate" := VTime now]> (dump_model cf item_in)).
  apply NoDup_cons in Hnd as [Hadd Hnd].
  split; [exact Hi|]. split; [exact Hfree|]. split; [reflexivity|].
  split; [apply lookup_insert_eq|]. split.
  - intros f Hf. rewrite lookup_insert_ne.
    + by apply dump_model_lookup.
    + intros Heq. apply Hadd. rewrite Heq.
      exact (elem_of_map_2 (fun g => to_snake_case (f_name g)) _ _ Hf).
  - intros k. apply dump_model_keys.
Qed.

Lemma in_collection_customers (p : path) :
  in_collection ["customers"] p = true <-> exists x, p = ["customers"; x].
Proof.
  unfold in_collection. rewrite bool_decide_eq_true. split.
  - intros [Hl Ht]. destruct p as [|a [|b [|c p]]]; simpl in Hl; try discriminate.
    simpl in Ht. injection Ht as ->. by exists b.
  - intros [x ->]. split; reflexivity.
Qed.

Lemma customers_with_line_id_nonempty (lid : string) (s : store) :
  customers_with_line_id lid s <> [] <->
  exists x d, (["customers"; x], d) ∈ s /\ d !! "lineId" = Some (VStr lid).
Proof.
  unfold customers_with_line_id. split.
  - intros H. destruct (List.filter _ s) as [|[p d] l] eqn:E; [by contradiction H|].
    assert (Hin : In (p, d) (List.filter (fun e => in_collection ["customers"] e.1 &&
                              matches [("lineId", VStr lid)] e.2) s)) by (rewrite E; by left).
    apply filter_In in Hin as [Hs Hf]. apply andb_prop in Hf as [Hc Hm]. simpl in Hc, Hm.
    apply in_collection_customers in Hc as [x ->]. exists x, d. split.
    + by apply list_elem_of_In.
    + unfold matches in Hm. simpl in Hm. rewrite andb_true_r in Hm.
      by apply bool_decide_eq_true in Hm.
  - intros (x & d & Hin & Hl).
    assert (Hf : In (["customers"; x], d) (List.filter (fun e => in_collection ["customers"] e.1 &&
                              matches [("lineId", VStr lid)] e.2) s)).
    { apply filter_In. split; [by apply list_elem_of_In|].
      unfold matches. simpl. rewrite Hl, bool_decide_true by reflexivity. reflexivity. }
    destruct (List.filter _ s); [contradiction|discriminate].
Qed.

Lemma get_user_status_linked (lid : string) (s : store) (x : string) (d : doc) :
  (["customers"; x], d) ∈ s -> d !! "lineId" = Some (VStr lid) ->
  get_user_status_endpoint lid s = ((200, BDoc {[ "isLinked" := VBool true ]}), s).
Proof.
  intros Hin Hl. unfold get_user_status_endpoint, run_endpoint, get_user_status.
  destruct (customers_with_line_id lid s) eqn:E; [|reflexivity].
  exfalso. exact (proj2 (customers_with_line_id_nonempty lid s)
                   (ex_intro _ x (ex_intro _ d (conj Hin Hl))) E).
Qed.

Lemma fetch_patients_spec (ids : list string) (s : store) :
  fetch_patients ids s =
    (inr (omap (fun pid => (fun d => <["patientId" := VStr pid]> d) <$> st_get s ["customers"; pid]) ids), s).
Proof.
  induction ids as [|pid ids IH]; [reflexivity|].
  cbn [fetch_patients]. unfold bind, fs_get. cbv beta iota. fold (fetch_patients ids).
  rewrite IH. unfold ret. destruct (st_get s ["customers"; pid]) eqn:E; simpl; rewrite E; reflexivity.
Qed.

Lemma fetch_patients_length (ids : list string) (s : store) :
  length (omap (fun pid => (fun d => <["patientId" := VStr pid]> d) <$> st_get s ["customers"; pid]) ids) =
  length (List.filter (fun pid => bool_decide (is_Some (st_get s ["customers"; pid]))) ids).
Proof.
  induction ids as [|pid ids IH]; [reflexivity|]. simpl.
  destruct (st_get s ["customers"; pid]) eqn:E; simpl.
  - f_equal. exact IH.
  - exact IH.
Qed.


Lemma run_endpoint_snd (c : Z) (m : M body) (s : store) :
  (m s).2 = s -> (run_endpoint c m s).2 = s.
Proof. unfold run_endpoint. destruct (m s) as [[[]|] t]; simpl; auto. Qed.

Lemma get_assigned_patients_eq (cuid : string) (s : store) :
  get_assigned_patients cuid s =
  match st_get s ["clinicians"; cuid] with
  | None => (inl (HTTPException 404), s)
  | Some c =>
      if negb (truthy (default (VStrList []) (c !! "assignedPatients")))
      then (inr (BDocs []), s) else
      match (py_iter (default (VStrList []) (c !! "assignedPatients")) s).1 with
      | inl e => (inl e, s)
      | inr ids =>
          match mapM (model_validate Customer_fields)
                  (omap (fun pid => (fun d => <["patientId" := VStr pid]> d) <$>
                                    st_get s ["customers"; pid]) ids) with
          | Some rs => (inr (BDocs rs), s)
          | None => (inl (PyError "ResponseValidationError"), s)
          end
      end
  end.
Proof.
  unfold get_assigned_patients, bind, fs_get. cbv beta iota zeta.
  destruct (st_get s ["clinicians"; cuid]) as [c|]; [|reflexivity].
  destruct (negb _); [reflexivity|].
  destruct (default _ _); unfold py_iter, ret, raise; cbv beta iota; try reflexivity;
    rewrite fetch_patients_spec; cbn [fst]; destruct (mapM _ _); reflexivity.
Qed.


(** ** Extra properties *)




(** [add_a_device], [add_a_mask], [add_air_tubing] (customers.py): a 201
    means the body validated, the generated id was free and exactly one
    document was appended at [customers/{uid}/{coll}/{id}]; it holds
    [addedDate] and every input field under its snake_case alias, and no
    other key. *)
Theorem add_endpoints_store_by_alias (fail : bool) (now : Z) (aid : string) (b : doc)
    (uid : string) (s : store) (out : body) (s' : store) :
  (add_a_device_endpoint fail now aid b uid s = ((201, out), s') ->
   exists item_in d, DeviceCreate_validate b = Some item_in /\
     st_get s ["customers"; uid; "devices"; aid] = None /\
     s' = s ++ [(["customers"; uid; "devices"; aid], d)] /\
     d !! "addedDate" = Some (VTime now) /\
     (forall f, f ∈ DeviceCreate_fields -> d !! to_snake_case (f_name f) = item_in !! f_name f) /\
     (forall k, is_Some (d !! k) ->
        k ∈ ["addedDate"; "device_name"; "serial_number"; "device_number"; "status"; "settings"])) /\
  (add_a_mask_endpoint fail now aid b uid s = ((201, out), s') ->
   exists item_in d, model_validate MaskCreate_fields b = Some item_in /\
     st_get s ["customers"; uid; "masks"; aid] = None /\
     s' = s ++ [(["customers"; uid; "masks"; aid], d)] /\
     d !! "addedDate" = Some (VTime now) /\
     (forall f, f ∈ MaskCreate_fields -> d !! to_snake_case (f_name f) = item_in !! f_name f) /\
     (forall k, is_Some (d !! k) -> k ∈ ["addedDate"; "mask_name"; "size"])) /\
  (add_air_tubing_endpoint fail now aid b uid s = ((201, out), s') ->
   exists item_in d, model_validate AirTubingCreate_fields b = Some item_in /\
     st_get s ["customers"; uid; "airTubing"; aid] = None /\
     s' = s ++ [(["customers"; uid; "airTubing"; aid], d)] /\
     d !! "addedDate" = Some (VTime now) /\
     (forall f, f ∈ AirTubingCreate_fields -> d !! to_snake_case (f_name f) = item_in !! f_name f) /\
     (forall k, is_Some (d !! k) -> k ∈ ["addedDate"; "tubing_name"])).
Proof.
  split; [|split]; intros H.
  - destruct (add_sub_item_stored DeviceCreate_validate DeviceCreate_fields Device_validate
                "devices" "deviceId" fail now aid b uid s out s'
                ltac:(apply (bool_decide_unpack _); vm_compute; reflexivity) H)
      as (i & d & H1 & H2 & H3 & H4 & H5 & H6).
    exists i, d. do 5 (split; [assumption|]). intros k Hk. exact (H6 k Hk).
  - destruct (add_sub_item_stored (model_validate MaskCreate_fields) MaskCreate_fields
                (model_validate Mask_fields) "masks" "maskId" fail now aid b uid s out s'
                ltac:(apply (bool_decide_unpack _); vm_compute; reflexivity) H)
      as (i & d & H1 & H2 & H3 & H4 & H5 & H6).
    exists i, d. do 5 (split; [assumption|]). intros k Hk. exact (H6 k Hk).
  - destruct (add_sub_item_stored (model_validate AirTubingCreate_fields) AirTubingCreate_fields
                (model_validate AirTubing_fields) "airTubing" "tubingId" fail now aid b uid s out s'
                ltac:(apply (bool_decide_unpack _); vm_compute; reflexivity) H)
      as (i & d & H1 & H2 & H3 & H4 & H5 & H6).
    exists i, d. do 5 (split; [assumption|]). intros k Hk. exact (H6 k Hk).
Qed.

(** [add_a_device] (customers.py): the device it stores holds its serial
    number under [serial_number] only, so no collection-group query on
    [serialNumber] (the one [link_account] and [link_device_to_profile]
    run) ever returns it: after a 201 every such query answers exactly
    as before. *)
Theorem add_a_device_invisible_to_serial_queries (fail : bool) (now : Z) (aid : string)
    (b : doc) (uid : string) (s : store) (out : body) (s' : store) :
  add_a_device_endpoint fail now aid b uid s = ((201, out), s') ->
  forall (v : value) (flt : list (string * value)) (n : nat),
    group_query "devices" (("serialNumber", v) :: flt) n s' =
    group_query "devices" (("serialNumber", v) :: flt) n s.
Proof.
  intros H v flt n.
  destruct (add_sub_item_stored DeviceCreate_validate DeviceCreate_fields Device_validate
              "devices" "deviceId" fail now aid b uid s out s'
              ltac:(apply (bool_decide_unpack _); vm_compute; reflexivity) H)
    as (i & d & _ & _ & -> & _ & _ & Hk).
  assert (Hnot : "serialNumber" ∉ "addedDate" :: map (fun f => to_snake_case (f_name f)) DeviceCreate_fields)
    by (apply (bool_decide_unpack _); vm_compute; reflexivity).
  assert (Hn : d !! "serialNumber" = None).
  { destruct (d !! "serialNumber") eqn:E; [|reflexivity].
    exfalso. apply Hnot, Hk. rewrite E. eexists; reflexivity. }
  unfold group_query. rewrite List.filter_app. cbn [List.filter fst snd].
  unfold matches. cbn [forallb fst snd]. rewrite Hn.
  rewrite (bool_decide_false (None = Some v)) by discriminate.
  rewrite andb_false_l, andb_false_r, app_nil_r. reflexivity.
Qed.

Lemma add_a_device_invisible_to_serial_queries_witness :
  (add_a_device_endpoint false 7 "A1" sample_device_body "U" sample_store).1.1 = 201 /\
  group_query "devices" [("serialNumber", VStr "S9")] 1
    (add_a_device_endpoint false 7 "A1" sample_device_body "U" sample_store).2 =
  group_query "devices" [("serialNumber", VStr "S9")] 1 sample_store.
Proof.
  split; [vm_compute; reflexivity|].
  apply (add_a_device_invisible_to_serial_queries false 7 "A1" sample_device_body "U" sample_store
           (add_a_device_endpoint false 7 "A1" sample_device_body "U" sample_store).1.2
           (add_a_device_endpoint false 7 "A1" sample_device_body "U" sample_store).2).
  vm_compute. reflexivity.
Defined.

(** The add and list endpoints of devices, masks and air tubing
    (customers.py) fit together: after a 201, the listing of the same
    caller's sub-collection, when it answers 200, contains the item the
    201 returned. *)
Theorem add_then_list_round_trip (fail : bool) (now : Z) (aid : string) (b : doc)
    (uid : string) (s : store) (out : body) (s' : store) (items : list doc) (s'' : store) :
  (add_a_device_endpoint fail now aid b uid s = ((201, out), s') ->
   get_my_devices_endpoint uid s' = ((200, BDocs items), s'') ->
   exists r, out = BDoc r /\ r ∈ items) /\
  (add_a_mask_endpoint fail now aid b uid s = ((201, out), s') ->
   get_my_masks_endpoint uid s' = ((200, BDocs items), s'') ->
   exists r, out = BDoc r /\ r ∈ items) /\
  (add_air_tubing_endpoint fail now aid b uid s = ((201, out), s') ->
   get_my_air_tubing_endpoint uid s' = ((200, BDocs items), s'') ->
   exists r, out = BDoc r /\ r ∈ items).
Proof. split; [|split]; apply add_sub_item_then_list. Qed.

(** [get_assigned_patients] (clinicians.py): it never writes; a missing
    clinician is 404; a missing or falsy [assignedPatients] gives an empty
    list; otherwise, for a list of ids (or a string, iterated character by
    character), a 200 returns one profile per id whose customer document
    exists, the others being skipped silently. *)
Theorem get_assigned_patients_outcomes (cuid : string) (s : store) :
  (get_assigned_patients_endpoint cuid s).2 = s /\
  (st_get s ["clinicians"; cuid] = None ->
   get_assigned_patients_endpoint cuid s = ((404, BNone), s)) /\
  (forall c, st_get s ["clinicians"; cuid] = Some c ->
   truthy (dget c "assignedPatients") = false ->
   get_assigned_patients_endpoint cuid s = ((200, BDocs []), s)) /\
  (forall c ids rs, st_get s ["clinicians"; cuid] = Some c ->
   (c !! "assignedPatients" = Some (VStrList ids) \/
    exists str, c !! "assignedPatients" = Some (VStr str) /\
                ids = map (fun ch => String ch EmptyString) (String.list_ascii_of_string str)) ->
   get_assigned_patients_endpoint cuid s = ((200, BDocs rs), s) ->
   length rs = length (List.filter (fun pid => bool_decide (is_Some (st_get s ["customers"; pid]))) ids)).
Proof.
  unfold get_assigned_patients_endpoint. split; [|split; [|split]].
  - apply run_endpoint_snd. rewrite get_assigned_patients_eq.
    destruct (st_get s ["clinicians"; cuid]) as [c|]; [|reflexivity].
    destruct (negb _); [reflexivity|].
    destruct (py_iter _ _).1; [reflexivity|].
    destruct (mapM _ _); reflexivity.
  - intros Hc. unfold run_endpoint. rewrite get_assigned_patients_eq, Hc. reflexivity.
  - intros c Hc Ht. unfold run_endpoint. rewrite get_assigned_patients_eq, Hc.
    unfold dget in Ht. destruct (c !! "assignedPatients") as [v|]; simpl in Ht |- *.
    + rewrite Ht. reflexivity.
    + reflexivity.
  - intros c ids rs Hc Hv H. unfold run_endpoint in H. rewrite get_assigned_patients_eq, Hc in H.
    assert (Hpy : (py_iter (default (VStrList []) (c !! "assignedPatients")) s).1 = inr ids /\
                  (truthy (default (VStrList []) (c !! "assignedPatients")) = false -> ids = [])).
    { destruct Hv as [Hl | (str & Hs & ->)].
      - rewrite Hl. split; [reflexivity|]. simpl. destruct ids; [reflexivity|discriminate].
      - rewrite Hs. split; [reflexivity|]. simpl. destruct str; [reflexivity|discriminate]. }
    destruct Hpy as [Hpy Hempty].
    destruct (truthy (default (VStrList []) (c !! "assignedPatients"))) eqn:T; simpl in H.
    + rewrite Hpy in H.
      destruct (mapM _ _) as [k|] eqn:Hm; [|discriminate].
      injection H as <-. rewrite (mapM_length _ _ _ Hm). apply fetch_patients_length.
    + injection H as <-. rewrite (Hempty eq_refl). reflexivity.
Qed.

(** [get_user_status] (users.py): it never writes and always answers 200
    with [isLinked], which is true exactly when some document of the
    [customers] collection has [lineId] equal to the caller's LINE id. *)
Theorem get_user_status_spec (lid : string) (s : store) :
  exists b, get_user_status_endpoint lid s = ((200, BDoc {[ "isLinked" := VBool b ]}), s) /\
    (b = true <-> exists x d, (["customers"; x], d) ∈ s /\ d !! "lineId" = Some (VStr lid)).
Proof.
  eexists. split; [reflexivity|]. rewrite <- customers_with_line_id_nonempty.
  destruct (customers_with_line_id lid s); simpl; split; intros H.
  - discriminate.
  - by contradiction H.
  - discriminate.
  - reflexivity.
Qed.

(** [link_account] then [get_user_status] (users.py): when the first
    device with the serial number sits under a customer document, a 204
    from [link_account] makes [get_user_status] report [isLinked] true
    for the same LINE id. *)
Theorem link_account_then_linked (sn lid x dev : string) (dd : doc)
    (rest : list (path * doc)) (s s' : store) :
  group_query "devices" [("serialNumber", VStr sn)] 1 s =
    (["customers"; x; "devices"; dev], dd) :: rest ->
  link_account_endpoint sn lid s = ((204, BNone), s') ->
  get_user_status_endpoint lid s' = ((200, BDoc {[ "isLinked" := VBool true ]}), s').
Proof.
  intros Hq H.
  unfold link_account_endpoint, run_endpoint, link_account, bind, fs_get, raise, ret, fs_update in H.
  cbv beta iota in H. rewrite Hq in H.
  change (parent_parent ["customers"; x; "devices"; dev]) with (Some ["customers"; x]) in H.
  cbv beta iota in H.
  destruct (st_get s ["customers"; x]) as [c|] eqn:Ec; [|discriminate H].
  assert (En : encodable {[ "lineId" := VStr lid ]} = true) by (vm_compute; reflexivity).
  destruct (truthy (dget c "lineId")) eqn:T; simpl in H.
  - destruct (bool_decide (dget c "lineId" = VStr lid)) eqn:B; simpl in H; [|discriminate H].
    injection H as <-. apply bool_decide_eq_true in B.
    apply (get_user_status_linked lid s x c (st_get_elem _ _ _ Ec)).
    unfold dget in B. destruct (c !! "lineId"); simpl in B; congruence.
  - rewrite Ec, En in H. injection H as <-.
    apply (get_user_status_linked _ _ x ({[ "lineId" := VStr lid ]} ∪ c)).
    + apply st_get_elem, st_get_set_eq.
    + apply lookup_union_Some_l, lookup_singleton_eq.
Qed.

Lemma link_account_then_linked_witness :
  group_query "devices" [("serialNumber", VStr "S1")] 1 sample_store =
    [(["customers"; "P"; "devices"; "d1"],
      <["serialNumber" := VStr "S1"]> (<["status" := VStr "unlink"]> {[ "patientId" := VStr "X" ]}))] /\
  get_user_status_endpoint "L1" (link_account_endpoint "S1" "L1" sample_store).2 =
    ((200, BDoc {[ "isLinked" := VBool true ]}), (link_account_endpoint "S1" "L1" sample_store).2).
Proof.
  split; [reflexivity|].
  apply (link_account_then_linked "S1" "L1" "P" "d1"
           (<["serialNumber" := VStr "S1"]> (<["status" := VStr "unlink"]> {[ "patientId" := VStr "X" ]}))
           [] sample_store (link_account_endpoint "S1" "L1" sample_store).2).
  - reflexivity.
  - vm_compute. reflexivity.
Defined.



(** [_verify_line_token] (auth.py), its failure paths: a network error
    is 500; a non-2xx reply is re-raised with the provider's status code
    when its body is a JSON object, and is an uncaught error (500) when
    it is not; a 2xx reply that is not JSON is 400, and one that is JSON
    but not an object is an uncaught error. *)
Theorem verify_line_token_errors (chan : string) (code : Z) (m : gmap string value) :
  verify_line_token chan NetworkError = inl (HTTPException 500) /\
  (~ (200 <= code < 300) ->
   verify_line_token chan (HttpReply code (JObject m)) = inl (HTTPException code) /\
   (exists e, verify_line_token chan (HttpReply code JInvalid) = inl (PyError e)) /\
   (exists e, verify_line_token chan (HttpReply code JNonObject) = inl (PyError e))) /\
  (200 <= code < 300 ->
   verify_line_token chan (HttpReply code JInvalid) = inl (HTTPException 400) /\
   exists e, verify_line_token chan (HttpReply code JNonObject) = inl (PyError e)).
Proof.
  split; [reflexivity|]. unfold verify_line_token. split; intros Hc.
  - replace ((200 <=? code) && (code <? 300)) with false.
    + simpl. split; [reflexivity|]. split; eexists; reflexivity.
    + symmetry. apply not_true_iff_false. rewrite andb_true_iff, Z.leb_le, Z.ltb_lt. exact Hc.
  - replace ((200 <=? code) && (code <? 300)) with true.
    + simpl. split; [reflexivity|]. eexists; reflexivity.
    + symmetry. rewrite andb_true_iff, Z.leb_le, Z.ltb_lt. exact Hc.
Qed.

(** [link_account] (users.py), its failure paths: no device with the
    serial number is 404; a device in a root [devices] collection (no
    parent document) or whose parent customer document does not exist
    gives 500; in each case nothing is written. *)
Theorem link_account_errors (sn lid : string) (s : store) :
  (group_query "devices" [("serialNumber", VStr sn)] 1 s = [] ->
   link_account_endpoint sn lid s = ((404, BNone), s)) /\
  (forall p dd rest, group_query "devices" [("serialNumber", VStr sn)] 1 s = (p, dd) :: rest ->
   (parent_parent p = None \/ exists cref, parent_parent p = Some cref /\ st_get s cref = None) ->
   link_account_endpoint sn lid s = ((500, BNone), s)).
Proof.
  unfold link_account_endpoint, run_endpoint, link_account, bind, fs_get, raise.
  cbv beta iota. split.
  - intros Hq. rewrite Hq. reflexivity.
  - intros p dd rest Hq Hp. rewrite Hq. cbv beta iota.
    destruct Hp as [Hp | (cref & Hp & Hc)]; rewrite Hp; [reflexivity|].
    cbv beta iota. rewrite Hc. reflexivity.
Qed.

(** [get_user_equipment] (equipment.py): it never writes; when no
    customer has the caller's LINE id the [HTTPException(404)] it raises
    is caught by its own [except Exception] and turned into a 500; and
    when the linked customer has a device document without a [model]
    field (as every device stored by [add_a_device] is), the answer is
    500 as well. *)
Theorem get_user_equipment_outcomes (lid : string) (s : store) :
  (get_user_equipment_endpoint lid s).2 = s /\
  (customers_with_line_id lid s = [] ->
   get_user_equipment_endpoint lid s = ((500, BNone), s)) /\
  (forall p c rest dev dd, customers_with_line_id lid s = (p, c) :: rest ->
   (["customers"; doc_name p; "devices"; dev], dd) ∈ s -> dd !! "model" = None ->
   get_user_equipment_endpoint lid s = ((500, BNone), s)).
Proof.
  unfold get_user_equipment_endpoint, get_user_equipment, run_endpoint, try_reraise, bind, raise, ret.
  cbv beta iota. split; [|split].
  - destruct (customers_with_line_id lid s) as [|[p c] rest]; [reflexivity|].
    destruct (mapM _ _); reflexivity.
  - intros H. rewrite H. reflexivity.
  - intros p c rest dev dd H Hin Hm. rewrite H. cbv beta iota.
    rewrite (mapM_none_of_elem _ _ (["customers"; doc_name p; "devices"; dev], dd)); [reflexivity| |].
    + apply list_elem_of_In, filter_In. split; [by apply list_elem_of_In|].
      apply bool_decide_eq_true. split; reflexivity.
    + unfold model_validate_plain, EquipmentDevice_fields.
      cbn [foldr f_name f_default f_ty f_nullable snd]. rewrite Hm. destruct (dd !! "lastSync") as [v|]; [destruct (_ || _)|]; reflexivity.
Qed.
